(** * zksync2-python: the ContractDeployer utility contract

    A shallow embedding of [protocol/utility_contracts/contract_deployer.py]
    together with the two hash functions it calls ([hashlib.sha256] and
    [eth_utils.crypto.keccak]), followed by the properties of the bytecode
    hash, of the CREATE / CREATE2 address derivations, of the deployer
    calldata builders and of the receipt address extraction. *)

From Stdlib Require Import ZArith List String Ascii Lia.
From Stdlib.Strings Require Import Byte.
From stdpp Require Import base option list strings pretty gmap.
Import ListNotations.

Local Open Scope Z_scope.

(** ** Python values: byte strings, exceptions, results *)

(** A Python [bytes] object. *)
Abbreviation bytes := (list byte).

(** [HexStr] of [eth_typing] is a [str]. *)
Abbreviation HexStr := string.

(** The built-in exceptions that the embedded code can raise, each carrying
    the message (or, for [KeyError], the missing key) it is raised with. *)
Inductive exn : Type :=
| OverflowError (msg : string)
| ValueError (msg : string)
| IndexError (msg : string)
| KeyError (key : string).

(** The outcome of a call: a returned value or a raised exception. *)
Inductive result (A : Type) : Type :=
| Ok (a : A)
| Raise (e : exn).
Arguments Ok {A} a.
Arguments Raise {A} e.

#[global] Instance result_ret : MRet result := fun A a => Ok a.
#[global] Instance result_bind : MBind result := fun A B f r =>
  match r with
  | Ok a => f a
  | Raise e => Raise e
  end.

(** [returns r]: the call came back with a value. *)
Definition returns {A} (r : result A) : bool :=
  match r with Ok _ => true | Raise _ => false end.

(** [raises_overflow r]: the call raised [OverflowError]. *)
Definition raises_overflow {A} (r : result A) : bool :=
  match r with Raise (OverflowError _) => true | _ => false end.

(** The byte whose value is [z mod 256]. *)
Definition byte_of_Z (z : Z) : byte :=
  match Byte.of_N (Z.to_N (z mod 256)) with
  | Some b => b
  | None => x00
  end.

Definition Z_of_byte (b : byte) : Z := Z.of_N (Byte.to_N b).

(** [len(b)] *)
Definition len {A} (l : list A) : Z := Z.of_nat (length l).

(** The slice [l[a:b]] for [0 <= a <= b]. *)
Definition slice {A} (a b : nat) (l : list A) : list A := drop a (take b l).

(** The first [n] consecutive pieces of [k] elements of a list. *)
Fixpoint pieces {A} (k n : nat) (l : list A) : list (list A) :=
  match n with
  | O => []
  | S n' => take k l :: pieces k n' (drop k l)
  end.

(** [int.from_bytes(bs, byteorder='big')] *)
Definition from_bytes_big (bs : bytes) : Z :=
  fold_left (fun acc b => acc * 256 + Z_of_byte b) bs 0.

(** ** SHA-256 (FIPS 180-4), the function behind [hashlib.sha256] *)

Module SHA256.

Definition mask32 : Z := 0xFFFFFFFF.
Definition w32 (x : Z) : Z := Z.land x mask32.
Definition add32 (x y : Z) : Z := w32 (x + y).
Definition rotr (n x : Z) : Z :=
  Z.lor (Z.shiftr x n) (w32 (Z.shiftl x (32 - n))).
Definition xor3 (x y z : Z) : Z := Z.lxor (Z.lxor x y) z.

Definition Ch (x y z : Z) : Z :=
  Z.lxor (Z.land x y) (Z.land (Z.lxor x mask32) z).
Definition Maj (x y z : Z) : Z :=
  xor3 (Z.land x y) (Z.land x z) (Z.land y z).
Definition Sigma0 (x : Z) : Z := xor3 (rotr 2 x) (rotr 13 x) (rotr 22 x).
Definition Sigma1 (x : Z) : Z := xor3 (rotr 6 x) (rotr 11 x) (rotr 25 x).
Definition sigma0 (x : Z) : Z := xor3 (rotr 7 x) (rotr 18 x) (Z.shiftr x 3).
Definition sigma1 (x : Z) : Z := xor3 (rotr 17 x) (rotr 19 x) (Z.shiftr x 10).

(** The prime numbers up to [n], by trial division. *)
Definition is_prime (p : Z) : bool :=
  (2 <=? p)
  && forallb (fun d => negb (p mod d =? 0))
             (map Z.of_nat (seq 2 (Z.to_nat p - 2))).

Definition primes_upto (n : nat) : list Z :=
  filter (fun p => is_prime p = true) (map Z.of_nat (seq 0 (S n))).

(** The integer cube root of [n < 2 ^ (3 * bits)], one bit at a time. *)
Fixpoint cube_root_bits (bits : nat) (n r : Z) : Z :=
  match bits with
  | O => r
  | S b =>
      let c := r + 2 ^ Z.of_nat b in
      cube_root_bits b n (if c * c * c <=? n then c else r)
  end.

Definition cube_root (n : Z) : Z := cube_root_bits 64 n 0.

(** The round constants: the first 32 bits of the fractional parts of the
    cube roots of the first 64 primes (428a2f98, ..., c67178f2). *)
Definition K : list Z :=
  Eval vm_compute in
    map (fun p => cube_root (p * 2 ^ 96) mod 2 ^ 32) (primes_upto 311).

(** The eight working variables / hash words. *)
Definition state : Type := Z * Z * Z * Z * Z * Z * Z * Z.

(** The initial hash value: the first 32 bits of the fractional parts of
    the square roots of the first 8 primes (6a09e667, ..., 5be0cd19). *)
Definition H0 : state :=
  Eval vm_compute in
    match map (fun p => Z.sqrt (p * 2 ^ 64) mod 2 ^ 32) (primes_upto 19) with
    | [a; b; c; d; e; f; g; h] => (a, b, c, d, e, f, g, h)
    | _ => (0, 0, 0, 0, 0, 0, 0, 0)
    end.

(** Big-endian 32-bit word of four bytes. *)
Definition word_of_bytes (bs : bytes) : Z := from_bytes_big bs.

Definition bytes_of_word (x : Z) : bytes :=
  [ byte_of_Z (Z.shiftr x 24); byte_of_Z (Z.shiftr x 16);
    byte_of_Z (Z.shiftr x 8); byte_of_Z x ].

(** Message padding: a one bit, zeros up to 56 mod 64, the bit length on
    64 bits. *)
Definition pad (msg : bytes) : bytes :=
  let l := len msg in
  let bits := (8 * l) mod 2 ^ 64 in
  msg ++ [x80] ++ repeat x00 (Z.to_nat ((55 - l) mod 64))
      ++ bytes_of_word (Z.shiftr bits 32) ++ bytes_of_word bits.

(** One step of the message schedule; [rw] holds W(t-1), W(t-2), ... *)
Definition schedule_step (rw : list Z) : list Z :=
  add32 (add32 (sigma1 (nth 1 rw 0)) (nth 6 rw 0))
        (add32 (sigma0 (nth 14 rw 0)) (nth 15 rw 0)) :: rw.

Definition schedule (block : bytes) : list Z :=
  let w16 := map word_of_bytes (pieces 4 16 block) in
  rev (Nat.iter 48 schedule_step (rev w16)).

Definition round (s : state) (kw : Z * Z) : state :=
  let '(a, b, c, d, e, f, g, h) := s in
  let '(k, w) := kw in
  let t1 := add32 (add32 (add32 h (Sigma1 e)) (add32 (Ch e f g) k)) w in
  let t2 := add32 (Sigma0 a) (Maj a b c) in
  (add32 t1 t2, a, b, c, add32 d t1, e, f, g).

Definition compress (s : state) (block : bytes) : state :=
  let '(a, b, c, d, e, f, g, h) := s in
  let '(a', b', c', d', e', f', g', h') :=
    fold_left round (combine K (schedule block)) s in
  (add32 a a', add32 b b', add32 c c', add32 d d',
   add32 e e', add32 f f', add32 g g', add32 h h').

Definition digest_of_state (s : state) : bytes :=
  let '(a, b, c, d, e, f, g, h) := s in
  bytes_of_word a ++ bytes_of_word b ++ bytes_of_word c ++ bytes_of_word d
  ++ bytes_of_word e ++ bytes_of_word f ++ bytes_of_word g ++ bytes_of_word h.

(** [sha256(msg).digest()] *)
Definition sha256 (msg : bytes) : bytes :=
  let p := pad msg in
  digest_of_state (fold_left compress (pieces 64 (length p / 64) p) H0).

End SHA256.

Definition sha256 := SHA256.sha256.

(** ** Keccak-256, the function behind [eth_utils.crypto.keccak]

    The original Keccak submission with rate 1088 and capacity 512: the
    padding starts with the byte 0x01 (not SHA-3's 0x06). *)

Module Keccak.

Definition mask64 : Z := 0xFFFFFFFFFFFFFFFF.
Definition w64 (x : Z) : Z := Z.land x mask64.
Definition rotl (n x : Z) : Z :=
  w64 (Z.lor (Z.shiftl x n) (Z.shiftr x (64 - n))).

(** The state: 25 lanes of 64 bits, lane (x, y) at index [x + 5 * y]. *)
Definition lane (st : list Z) (x y : nat) : Z :=
  nth (x mod 5 + 5 * (y mod 5)) st 0.

Definition coords : list (nat * nat) :=
  flat_map (fun y => map (fun x => (x, y)) (seq 0 5)) (seq 0 5).

Definition RC : list Z :=
  [ 0x0000000000000001; 0x0000000000008082; 0x800000000000808A;
    0x8000000080008000; 0x000000000000808B; 0x0000000080000001;
    0x8000000080008081; 0x8000000000008009; 0x000000000000008A;
    0x0000000000000088; 0x0000000080008009; 0x000000008000000A;
    0x000000008000808B; 0x800000000000008B; 0x8000000000008089;
    0x8000000000008003; 0x8000000000008002; 0x8000000000000080;
    0x000000000000800A; 0x800000008000000A; 0x8000000080008081;
    0x8000000000008080; 0x0000000080000001; 0x8000000080008008 ].

(** Rotation offsets, indexed like the state. *)
Definition rot_offsets : list Z :=
  [  0;  1; 62; 28; 27;
    36; 44;  6; 55; 20;
     3; 10; 43; 25; 39;
    41; 45; 15; 21;  8;
    18;  2; 61; 56; 14 ].

Definition theta (st : list Z) : list Z :=
  let C x := fold_left Z.lxor (map (lane st x) (seq 0 5)) 0 in
  let D x := Z.lxor (C (x + 4)%nat) (rotl 1 (C (x + 1)%nat)) in
  map (fun '(x, y) => Z.lxor (lane st x y) (D x)) coords.

(** B[y, 2x + 3y] = rot(A[x, y]); read backwards, the lane that lands on
    (X, Y) comes from x = X + 3Y, y = X. *)
Definition rho_pi (st : list Z) : list Z :=
  map (fun '(X, Y) =>
         let x := ((X + 3 * Y) mod 5)%nat in
         let y := X in
         rotl (nth (x + 5 * y) rot_offsets 0) (lane st x y)) coords.

Definition chi (st : list Z) : list Z :=
  map (fun '(x, y) =>
         Z.lxor (lane st x y)
                (Z.land (Z.lxor (lane st (x + 1) y) mask64)
                        (lane st (x + 2) y))) coords.

Definition iota (rc : Z) (st : list Z) : list Z :=
  match st with
  | [] => []
  | a :: rest => Z.lxor a rc :: rest
  end.

Definition keccak_round (st : list Z) (rc : Z) : list Z :=
  iota rc (chi (rho_pi (theta st))).

Definition keccak_f (st : list Z) : list Z := fold_left keccak_round RC st.

(** Little-endian 64-bit lane of eight bytes. *)
Definition lane_of_bytes (bs : bytes) : Z :=
  fold_right (fun b acc => Z_of_byte b + 256 * acc) 0 bs.

Definition bytes_of_lane (x : Z) : bytes :=
  [ byte_of_Z x; byte_of_Z (Z.shiftr x 8);
    byte_of_Z (Z.shiftr x 16); byte_of_Z (Z.shiftr x 24);
    byte_of_Z (Z.shiftr x 32); byte_of_Z (Z.shiftr x 40);
    byte_of_Z (Z.shiftr x 48); byte_of_Z (Z.shiftr x 56) ].

Definition rate : nat := 136.

(** pad10*1 on bytes: 0x01, zeros, and 0x80 on the last byte of the block
    (0x81 when one byte is missing). *)
Definition pad (msg : bytes) : bytes :=
  let q := (rate - length msg mod rate)%nat in
  msg ++ match q with
         | 1%nat => [x81]
         | _ => [x01] ++ repeat x00 (q - 2) ++ [x80]
         end.

Definition absorb (st : list Z) (block : bytes) : list Z :=
  let lanes := map lane_of_bytes (pieces 8 17 block) in
  keccak_f (map (fun '(a, i) => Z.lxor a (nth i lanes 0))
                (combine st (seq 0 25))).

Definition squeeze (st : list Z) : bytes :=
  bytes_of_lane (nth 0 st 0) ++ bytes_of_lane (nth 1 st 0)
  ++ bytes_of_lane (nth 2 st 0) ++ bytes_of_lane (nth 3 st 0).

(** [keccak(msg)]: the 32-byte Keccak-256 digest. *)
Definition keccak (msg : bytes) : bytes :=
  let p := pad msg in
  squeeze (fold_left absorb (pieces rate (length p / rate) p)
                     (repeat 0 25)).

End Keccak.

Definition keccak := Keccak.keccak.

(** ** The Python built-ins the module uses *)

Definition hex_digit (n : Z) : ascii :=
  nth (Z.to_nat n) (list_ascii_of_string "0123456789abcdef") "0"%char.

Definition hex_of_byte (b : byte) : list ascii :=
  [ hex_digit (Z_of_byte b / 16); hex_digit (Z_of_byte b mod 16) ].

(** [b.hex()], also what [hexdigest()] applies to a digest. *)
Definition hex (b : bytes) : string :=
  string_of_list_ascii (flat_map hex_of_byte b).

(** [sha256(msg).hexdigest()] *)
Definition sha256_hexdigest (msg : bytes) : string := hex (sha256 msg).

Definition hex_value (c : ascii) : option Z :=
  let n := Z.of_nat (nat_of_ascii c) in
  if (48 <=? n) && (n <=? 57) then Some (n - 48)
  else if (97 <=? n) && (n <=? 102) then Some (n - 87)
  else if (65 <=? n) && (n <=? 70) then Some (n - 55)
  else None.

(** ASCII whitespace: space, [\t], [\n], [\v], [\f], [\r]. *)
Definition is_space (c : ascii) : bool :=
  let n := Z.of_nat (nat_of_ascii c) in
  (n =? 32) || ((9 <=? n) && (n <=? 13)).

Definition fromhex_error (pos : nat) : exn :=
  ValueError ("non-hexadecimal number found in fromhex() arg at position "
              +:+ pretty pos).

(** [bytes.fromhex]: pairs of hexadecimal digits, white space allowed
    between the pairs. *)
Fixpoint fromhex_from (pos : nat) (cs : list ascii) : result bytes :=
  match cs with
  | [] => Ok []
  | c :: rest =>
      if is_space c then fromhex_from (S pos) rest
      else
        match hex_value c with
        | None => Raise (fromhex_error pos)
        | Some hi =>
            match rest with
            | [] => Raise (fromhex_error (S pos))
            | d :: rest' =>
                match hex_value d with
                | None => Raise (fromhex_error (S pos))
                | Some lo =>
                    bs ← fromhex_from (S (S pos)) rest';
                    Ok (byte_of_Z (16 * hi + lo) :: bs)
                end
            end
        end
  end.

Definition fromhex (s : string) : result bytes :=
  fromhex_from 0 (list_ascii_of_string s).

(** The [length] low-order bytes of [n], most significant first. *)
Definition big_endian (n : Z) (length : nat) : bytes :=
  map (fun i => byte_of_Z (Z.shiftr n (8 * Z.of_nat i))) (rev (seq 0 length)).

(** [n.to_bytes(length, byteorder='big')] *)
Definition to_bytes (n : Z) (length : nat) : result bytes :=
  if n <? 0 then
    Raise (OverflowError "can't convert negative int to unsigned")
  else if 256 ^ Z.of_nat length <=? n then
    Raise (OverflowError "int too big to convert")
  else Ok (big_endian n length).

(** Arguments handed to the ABI encoder: [bytes] and [int] objects. *)
Inductive pyval : Type :=
| PyBytes (b : bytes)
| PyInt (n : Z).

(** ** [protocol.core.utils] *)

(** Modelled from the spec: [pad_front_bytes] of [protocol/core/utils.py] is
    missing; it pads a byte string "to 32 bytes by left-zero-padding" it
    (here to [needed_length] bytes; a longer string is left as it is). *)
Definition pad_front_bytes (bs : bytes) (needed_length : nat) : bytes :=
  repeat x00 (needed_length - length bs) ++ bs.

(** Modelled from the spec: [int_to_bytes] of [protocol/core/utils.py] is
    missing; the nonce, an "unsigned integer", is "serialized big-endian",
    on as many bytes as its value needs. *)
Definition int_to_bytes (x : N) : bytes :=
  big_endian (Z.of_N x) (N.to_nat ((N.size x + 7) / 8)).

(** ** [protocol.utility_contracts.contract_deployer] *)

(** An entry of [processReceipt]'s result: web3's [EventData], of which the
    module reads the decoded arguments. *)
Record EventData : Type := {
  event : string;
  args : gmap string HexStr
}.

Section ContractDeployer.

(** [web3.types.TxReceipt] is only ever passed on to the event decoder. *)
Context {TxReceipt : Type}.

(** [get_data] of [protocol/core/utils.py] and [Web3.toChecksumAddress]
    are not embedded: the sender's bytes and the checksum-case text of an
    address are whatever these two return (or raise). *)
Variable get_data : HexStr -> result bytes.
Variable toChecksumAddress : string -> result HexStr.

(** The web3 contract object built from the deployer's ABI. *)
Record Contract : Type := {
  encodeABI : string -> list pyval -> result HexStr;
  ContractDeployed_processReceipt : TxReceipt -> result (list EventData)
}.

(** An instance: [self.contract_deployer]. *)
Record ContractDeployer : Type := {
  contract_deployer : Contract
}.

Definition DEFAULT_SALT : bytes := repeat x00 32.
Definition CREATE_FUNC : string := "create".
Definition CREATE2_FUNC : string := "create2".
Definition MAX_BYTE_CODE_LENGTH : Z := 2 ^ 16.
Definition EMPTY_BYTES : bytes := [].

(** [keccak(text=...)] hashes the UTF-8 bytes of the text; the two
    prefixes are evaluated once, when the class is created. *)
Definition keccak_text (text : string) : bytes :=
  keccak (list_byte_of_string text).
Definition CREATE_PREFIX : bytes :=
  Eval vm_compute in keccak_text "zksyncCreate".
Definition CREATE2_PREFIX : bytes :=
  Eval vm_compute in keccak_text "zksyncCreate2".

(** [int(len(bytecode) / 32)]: the true division by 32 is exact on every
    length below 2^53 and [int] truncates, so the value is the floor
    quotient (from 2^53 on, the rounded quotient is at least 2^48, far
    above the limit tested next, and a quotient too large for a float
    raises [OverflowError] as well). *)
Definition _hash_byte_code (self : ContractDeployer) (bytecode : bytes)
  : result bytes :=
  let bytecode_len := len bytecode / 32 in
  if bytecode_len >? MAX_BYTE_CODE_LENGTH then
    Raise (OverflowError
      "ContractDeployer._hash_byte_code, bytecode length must be less than 2^16")
  else
    byte_code_hash ← fromhex (sha256_hexdigest bytecode);
    prefix ← to_bytes bytecode_len 2;
    let ret := prefix ++ drop 2 byte_code_hash in
    Ok ret.

Definition encode_create2 (self : ContractDeployer) (bytecode : bytes)
    (call_data : option bytes) (salt : option bytes) : result HexStr :=
  let salt := match salt with None => DEFAULT_SALT | Some s => s end in
  let call_data :=
    match call_data with None => EMPTY_BYTES | Some c => c end in
  if negb (len salt =? 32) then
    Raise (OverflowError "Salt data must be 32 length")
  else
    bytecode_hash ← _hash_byte_code self bytecode;
    let args :=
      [PyBytes salt; PyBytes bytecode_hash; PyInt 0; PyBytes call_data] in
    encoded_function ←
      encodeABI (contract_deployer self) CREATE2_FUNC args;
    Ok encoded_function.

Definition encode_create (self : ContractDeployer) (bytecode : bytes)
    (call_data : option bytes) (salt_data : option bytes) : result HexStr :=
  let salt_data :=
    match salt_data with None => DEFAULT_SALT | Some s => s end in
  let call_data :=
    match call_data with None => EMPTY_BYTES | Some c => c end in
  if negb (len salt_data =? 32) then
    Raise (OverflowError "Salt data must be 32 length")
  else
    bytecode_hash ← _hash_byte_code self bytecode;
    let args :=
      [PyBytes salt_data; PyBytes bytecode_hash; PyInt 0; PyBytes call_data] in
    encoded_function ←
      encodeABI (contract_deployer self) CREATE_FUNC args;
    Ok encoded_function.

Definition compute_l2_create_address (self : ContractDeployer)
    (sender : HexStr) (nonce : N) : result HexStr :=
  sender_bytes ← get_data sender;
  let sender_bytes := pad_front_bytes sender_bytes 32 in
  let nonce := int_to_bytes nonce in
  let nonce_bytes := pad_front_bytes nonce 32 in
  let result := CREATE_PREFIX ++ sender_bytes ++ nonce_bytes in
  let sha_result := keccak result in
  let address := drop 12 sha_result in
  let address := "0x" +:+ hex address in
  toChecksumAddress address.

Definition compute_l2_create2_address (self : ContractDeployer)
    (sender : HexStr) (bytecode : bytes) (constructor : bytes)
    (salt : bytes) : result HexStr :=
  if negb (len salt =? 32) then
    Raise (OverflowError "Salt data must be 32 length")
  else
    sender_bytes ← get_data sender;
    let sender_bytes := pad_front_bytes sender_bytes 32 in
    bytecode_hash ← _hash_byte_code self bytecode;
    let ctor_hash := keccak constructor in
    let result :=
      CREATE2_PREFIX ++ sender_bytes ++ salt ++ bytecode_hash ++ ctor_hash in
    let sha_result := keccak result in
    let address := drop 12 sha_result in
    let address := "0x" +:+ hex address in
    toChecksumAddress address.

(** [result[1]] raises [IndexError] on a tuple of fewer than two entries,
    [entry["contractAddress"]] raises [KeyError] on a missing key. *)
Definition extract_contract_address (self : ContractDeployer)
    (receipt : TxReceipt) : result HexStr :=
  result ← ContractDeployed_processReceipt (contract_deployer self) receipt;
  match result !! 1%nat with
  | None => Raise (IndexError "tuple index out of range")
  | Some ev =>
      let entry := args ev in
      match entry !! "contractAddress" with
      | None => Raise (KeyError "contractAddress")
      | Some addr => Ok addr
      end
  end.

End ContractDeployer.

Arguments Contract : clear implicits.
Arguments ContractDeployer : clear implicits.

(** ** A deployer to run the functions on

    The collaborators are outside the module; to evaluate the functions on
    concrete inputs, [sample_deployer] renders the encoder's function name
    and arguments as text and decodes no event, [sample_get_data] reads an
    address written in hexadecimal after ["0x"], and
    [sample_toChecksumAddress] leaves the text as it is. *)

Definition render_pyval (v : pyval) : string :=
  match v with
  | PyBytes b => "bytes:" +:+ hex b
  | PyInt n => "int:" +:+ pretty n
  end.

Definition sample_contract (logs : list EventData) : Contract unit := {|
  encodeABI fn_name args :=
    Ok (fn_name +:+ "(" +:+ String.concat "," (map render_pyval args) +:+ ")");
  ContractDeployed_processReceipt _ := Ok logs
|}.

Definition sample_deployer (logs : list EventData) : ContractDeployer unit :=
  {| contract_deployer := sample_contract logs |}.

Definition sample_get_data (data : HexStr) : result bytes :=
  match data with
  | String "0" (String "x" digits) => fromhex digits
  | _ => fromhex data
  end.

Definition sample_toChecksumAddress (address : string) : result HexStr :=
  Ok address.

(** A sender and a salt to evaluate the derivations on. *)
Definition sample_sender : HexStr := "0x36615Cf349d7F6344891B1e7CA7C72883F5dc049".
Definition sample_sender_bytes : bytes :=
  Eval vm_compute in
    match sample_get_data sample_sender with Ok b => b | Raise _ => [] end.
Definition sample_salt : bytes := big_endian 7 32.

(** Two decoded entries: one with the deployed address, one without. *)
Definition sample_deployed : EventData :=
  {| event := "ContractDeployed";
     args := {[ "contractAddress" := "0x111C3E89Ce80e62EE88318C2804920D4c96f92bb" ]} |}.

Definition sample_other : EventData :=
  {| event := "ContractDeployed";
     args := {[ "deployerAddress" := "0x36615Cf349d7F6344891B1e7CA7C72883F5dc049" ]} |}.

(** ** The module's ABI cache and the constructor

    [icontract_deployer_abi_cache] is a module-level variable and the ABI is
    read from the packaged file [IContractDeployer.json]: both are made
    explicit as a world that the two functions thread through. [ABI] is the
    type of the non-[None] values [json.load] yields, [E] the type of the
    exceptions that opening and parsing the file and building the contract
    can raise. *)

Section abi_cache.

Context {TxReceipt ABI E : Type}.

(** The global, what opening and parsing the resource yields at present
    (an exception, or the parsed value, [None] for the JSON [null]), and how
    many times the resource has been opened. *)
Record world : Type := World {
  icontract_deployer_abi_cache : option ABI;
  IContractDeployer_json : E + option ABI;
  opened : nat
}.

(** An exception raised inside the [with] blocks leaves the global as it
    was; the value returned is the global, whatever was parsed. *)
Definition _icontract_deployer_abi_default (w : world)
  : (E + option ABI) * world :=
  match icontract_deployer_abi_cache w with
  | None =>
      let w := World None (IContractDeployer_json w) (S (opened w)) in
      match IContractDeployer_json w with
      | inl e => (inl e, w)
      | inr data =>
          let w := World data (IContractDeployer_json w) (opened w) in
          (inr (icontract_deployer_abi_cache w), w)
      end
  | Some _ => (inr (icontract_deployer_abi_cache w), w)
  end.

(** [web3.eth.contract(address=None, abi=abi)] *)
Record Web3 : Type := {
  eth_contract : option ABI -> E + Contract TxReceipt
}.

(** The attributes [__init__] sets: [self.web3] and
    [self.contract_deployer], the latter being all the methods read. *)
Record instance : Type := {
  web3 : Web3;
  as_self : ContractDeployer TxReceipt
}.

Definition __init__ (web3 : Web3) (abi : option ABI) (w : world)
  : (E + instance) * world :=
  let '(abi, w) :=
    match abi with
    | None => _icontract_deployer_abi_default w
    | Some _ => (inr abi, w)
    end in
  match abi with
  | inl e => (inl e, w)
  | inr abi =>
      match eth_contract web3 abi with
      | inl e => (inl e, w)
      | inr c =>
          (inr {| web3 := web3; as_self := {| contract_deployer := c |} |}, w)
      end
  end.

(** What can happen to the world: a call of the default, a construction,
    or a change of the resource on disk. *)
Inductive step : world -> world -> Prop :=
| step_default (w : world) :
    step w (_icontract_deployer_abi_default w).2
| step_init (web3 : Web3) (abi : option ABI) (w : world) :
    step w (__init__ web3 abi w).2
| step_resource (w : world) (content : E + option ABI) :
    step w (World (icontract_deployer_abi_cache w) content (opened w)).

(** The world after [n] calls of the default in a row. *)
Definition after_calls (n : nat) (w : world) : world :=
  Nat.iter n (fun w => (_icontract_deployer_abi_default w).2) w.

End abi_cache.

Arguments world : clear implicits.
Arguments Web3 : clear implicits.
Arguments instance : clear implicits.

(** A web3 object and worlds to run the constructor on: the ABI and the
    exceptions are texts, and a contract is built from any ABI but [None]. *)
Definition sample_web3 : Web3 unit string string := {|
  eth_contract abi :=
    match abi with
    | Some _ => inr (sample_contract [])
    | None => inl "abi is None"%string
    end
|}.

Definition sample_world_cached : world string string :=
  World (Some "abi-1"%string) (inr (Some "abi-2"%string)) 1.

Definition sample_world_fresh : world string string :=
  World None (inr (Some "abi-2"%string)) 0.

Definition sample_world_no_file : world string string :=
  World None (inl "No such file"%string) 0.

(** A lower-case hexadecimal digit. *)
Definition is_lower_hex (c : ascii) : bool :=
  let n := Z.of_nat (nat_of_ascii c) in
  ((48 <=? n) && (n <=? 57)) || ((97 <=? n) && (n <=? 102)).

(** ** Known answers of the two hash functions *)

Example sha256_constants :
  length SHA256.K = 64%nat
  /\ head SHA256.K = Some 0x428a2f98
  /\ last SHA256.K = Some 0xc67178f2
  /\ SHA256.H0.1.1.1.1.1.1.1 = 0x6a09e667
  /\ SHA256.H0.2 = 0x5be0cd19.
Proof. vm_compute. auto 6. Qed.

Example sha256_empty :
  hex (sha256 []) =
  "e3b0c44298fc1c149afbf4c8996fb92427ae41e4649b934ca495991b7852b855".
Proof. vm_compute. reflexivity. Qed.

Example sha256_abc :
  hex (sha256 (list_byte_of_string "abc")) =
  "ba7816bf8f01cfea414140de5dae2223b00361a396177a9cb410ff61f20015ad".
Proof. vm_compute. reflexivity. Qed.

Example sha256_two_blocks :
  hex (sha256 (repeat "a"%byte 56)) =
  "b35439a4ac6f0948b6d6f9e3c6af0f5f590ce20f1bde7090ef7970686ec6738a"
  /\ hex (sha256 (repeat "a"%byte 119)) =
  "31eba51c313a5c08226adf18d4a359cfdfd8d2e816b13f4af952f7ea6584dcfb"
  /\ hex (sha256 (repeat "a"%byte 120)) =
  "2f3d335432c70b580af0e8e1b3674a7c020d683aa5f73aaaedfdc55af904c21c".
Proof. vm_compute. auto. Qed.

Example keccak_empty :
  hex (keccak []) =
  "c5d2460186f7233c927e7db2dcc703c0e500b653ca82273b7bfad8045d85a470".
Proof. vm_compute. reflexivity. Qed.

Example keccak_zero_word :
  hex (keccak (repeat x00 32)) =
  "290decd9548b62a8d60345a988386fc84ba6bc95484008f6362f93160ef3e563".
Proof. vm_compute. reflexivity. Qed.

Example keccak_block_boundaries :
  hex (keccak (repeat "a"%byte 135)) =
  "34367dc248bbd832f4e3e69dfaac2f92638bd0bbd18f2912ba4ef454919cf446"
  /\ hex (keccak (repeat "a"%byte 136)) =
  "a6c4d403279fe3e0af03729caada8374b5ca54d8065329a3ebcaeb4b60aa386e"
  /\ hex (keccak (repeat "a"%byte 300)) =
  "5b7e0e47a96f32a88b4f14ca177982790807c40e1a105742ba0fc1babe1ef826".
Proof. vm_compute. auto. Qed.

Example CREATE_PREFIX_hex :
  hex CREATE_PREFIX =
  "63bae3a9951d38e8a3fbb7b70909afc1200610fc5bc55ade242f815974674f23".
Proof. vm_compute. reflexivity. Qed.

Example CREATE2_PREFIX_hex :
  hex CREATE2_PREFIX =
  "2020dba91b30cc0006188af794c2fb30dd8520db7e2c088b7fc7c103c00ca494".
Proof. vm_compute. reflexivity. Qed.

(** ** Bytes, hexadecimal text and fixed-width integers *)

Lemma byte_of_Z_of_byte (b : byte) : byte_of_Z (Z_of_byte b) = b.
Proof. destruct b; reflexivity. Qed.

Lemma Z_of_byte_range (b : byte) : 0 <= Z_of_byte b < 256.
Proof.
  unfold Z_of_byte. pose proof (Byte.to_N_bounded b) as Hb.
  generalize dependent (Byte.to_N b). intros n Hn. lia.
Qed.

Lemma Z_of_byte_of_Z (z : Z) : Z_of_byte (byte_of_Z z) = z mod 256.
Proof.
  unfold byte_of_Z, Z_of_byte.
  assert (Hr : 0 <= z mod 256 < 256) by (apply Z.mod_pos_bound; lia).
  destruct (Byte.of_N (Z.to_N (z mod 256))) as [b|] eqn:E.
  - apply Byte.to_of_N in E. rewrite E. lia.
  - apply Byte.of_N_None_iff in E. lia.
Qed.

Lemma length_hex_of_byte (b : byte) : length (hex_of_byte b) = 2%nat.
Proof. reflexivity. Qed.

(** Reading back the two digits written for a byte. *)
Lemma fromhex_from_hex_of_byte (b : byte) (pos : nat) (rest : list ascii) :
  fromhex_from pos (hex_of_byte b ++ rest) =
  bs ← fromhex_from (S (S pos)) rest; Ok (b :: bs).
Proof. destruct b; reflexivity. Qed.

Lemma fromhex_from_flat_map (b : bytes) (pos : nat) :
  fromhex_from pos (flat_map hex_of_byte b) = Ok b.
Proof.
  revert pos. induction b as [|a b IH]; intros pos; [reflexivity|].
  change (flat_map hex_of_byte (a :: b))
    with (hex_of_byte a ++ flat_map hex_of_byte b).
  rewrite fromhex_from_hex_of_byte, IH. reflexivity.
Qed.

(** [bytes.fromhex(b.hex()) == b] *)
Lemma fromhex_hex (b : bytes) : fromhex (hex b) = Ok b.
Proof.
  unfold fromhex, hex. rewrite list_ascii_of_string_of_list_ascii.
  apply fromhex_from_flat_map.
Qed.

Lemma length_hex (b : bytes) : String.length (hex b) = (2 * length b)%nat.
Proof.
  unfold hex. induction b as [|a b IH]; [reflexivity|].
  cbn [flat_map]. unfold hex_of_byte at 1. cbn [app string_of_list_ascii String.length].
  rewrite IH. cbn [length]. lia.
Qed.

Lemma sha256_length (msg : bytes) : length (sha256 msg) = 32%nat.
Proof.
  unfold sha256, SHA256.sha256.
  destruct (fold_left _ _ _) as [[[[[[[a b] c] d] e] f] g] h].
  reflexivity.
Qed.

Lemma keccak_length (msg : bytes) : length (keccak msg) = 32%nat.
Proof. reflexivity. Qed.

Lemma length_big_endian (n : Z) (k : nat) : length (big_endian n k) = k.
Proof.
  unfold big_endian. rewrite length_map, length_rev, length_seq. reflexivity.
Qed.

Lemma big_endian_S (n : Z) (k : nat) :
  big_endian n (S k) = byte_of_Z (Z.shiftr n (8 * Z.of_nat k)) :: big_endian n k.
Proof.
  unfold big_endian. rewrite seq_S, rev_app_distr. reflexivity.
Qed.

Lemma from_bytes_big_acc (bs : bytes) (acc : Z) :
  fold_left (fun acc b => acc * 256 + Z_of_byte b) bs acc =
  acc * 256 ^ len bs + from_bytes_big bs.
Proof.
  unfold from_bytes_big, len. revert acc.
  induction bs as [|b bs IH]; intros acc; cbn [fold_left length].
  - change (256 ^ Z.of_nat 0) with 1. lia.
  - rewrite IH, (IH (0 * 256 + Z_of_byte b)).
    rewrite Nat2Z.inj_succ, Z.pow_succ_r by lia. lia.
Qed.

Lemma from_bytes_big_cons (b : byte) (bs : bytes) :
  from_bytes_big (b :: bs) = Z_of_byte b * 256 ^ len bs + from_bytes_big bs.
Proof.
  unfold from_bytes_big at 1. cbn [fold_left].
  rewrite from_bytes_big_acc. lia.
Qed.

Lemma from_bytes_big_app (a b : bytes) :
  from_bytes_big (a ++ b) = from_bytes_big a * 256 ^ len b + from_bytes_big b.
Proof.
  unfold from_bytes_big at 1 2. rewrite fold_left_app.
  apply from_bytes_big_acc.
Qed.

Lemma from_bytes_big_zeros (k : nat) : from_bytes_big (repeat x00 k) = 0.
Proof.
  induction k as [|k IH]; [reflexivity|].
  cbn [repeat]. rewrite from_bytes_big_cons, IH. reflexivity.
Qed.

(** Left zero padding does not change the number a byte string encodes. *)
Lemma from_bytes_big_pad_front (bs : bytes) (k : nat) :
  from_bytes_big (pad_front_bytes bs k) = from_bytes_big bs.
Proof.
  unfold pad_front_bytes. rewrite from_bytes_big_app, from_bytes_big_zeros.
  lia.
Qed.

Lemma length_pad_front_bytes (bs : bytes) (k : nat) :
  (length bs <= k)%nat -> length (pad_front_bytes bs k) = k.
Proof.
  intros H. unfold pad_front_bytes. rewrite length_app, repeat_length. lia.
Qed.

(** The padded string is the zeros followed by the string itself. *)
Lemma pad_front_bytes_parts (bs : bytes) (k : nat) :
  take (k - length bs) (pad_front_bytes bs k) = repeat x00 (k - length bs)
  /\ drop (k - length bs) (pad_front_bytes bs k) = bs.
Proof.
  unfold pad_front_bytes. split.
  - apply take_app_length'. rewrite repeat_length. reflexivity.
  - apply drop_app_length'. rewrite repeat_length. reflexivity.
Qed.

(** [big_endian] writes [n] modulo [256 ^ k]. *)
Lemma from_bytes_big_big_endian (n : Z) (k : nat) :
  0 <= n -> from_bytes_big (big_endian n k) = n mod 256 ^ Z.of_nat k.
Proof.
  intros Hn. induction k as [|k IH].
  - cbn. rewrite Z.mod_1_r. reflexivity.
  - rewrite big_endian_S, from_bytes_big_cons, IH, Z_of_byte_of_Z.
    unfold len. rewrite length_big_endian.
    rewrite Z.shiftr_div_pow2 by lia.
    replace (2 ^ (8 * Z.of_nat k)) with (256 ^ Z.of_nat k)
      by (change 256 with (2 ^ 8); rewrite <- Z.pow_mul_r by lia; reflexivity).
    rewrite Nat2Z.inj_succ, Z.pow_succ_r by lia.
    set (p := 256 ^ Z.of_nat k).
    assert (Hp : 0 < p) by (apply Z.pow_pos_nonneg; lia).
    rewrite (Z.mul_comm 256 p), Z.rem_mul_r by lia. lia.
Qed.

Lemma to_bytes_in_range (n : Z) (k : nat) :
  0 <= n < 256 ^ Z.of_nat k -> to_bytes n k = Ok (big_endian n k).
Proof.
  intros [H0 H1]. unfold to_bytes.
  destruct (Z.ltb_spec n 0); [lia|].
  destruct (Z.leb_spec (256 ^ Z.of_nat k) n); [lia|]. reflexivity.
Qed.

Lemma to_bytes_too_big (n : Z) (k : nat) :
  256 ^ Z.of_nat k <= n ->
  to_bytes n k = Raise (OverflowError "int too big to convert").
Proof.
  intros H. unfold to_bytes.
  assert (0 < 256 ^ Z.of_nat k) by (apply Z.pow_pos_nonneg; lia).
  destruct (Z.ltb_spec n 0); [lia|].
  destruct (Z.leb_spec (256 ^ Z.of_nat k) n); [reflexivity|lia].
Qed.

Lemma len_nonneg {A} (l : list A) : 0 <= len l.
Proof. unfold len. lia. Qed.

Lemma len_app {A} (a b : list A) : len (a ++ b) = len a + len b.
Proof. unfold len. rewrite length_app. lia. Qed.

Lemma len_repeat {A} (x : A) (k : Z) : 0 <= k -> len (repeat x (Z.to_nat k)) = k.
Proof. intros H. unfold len. rewrite repeat_length. lia. Qed.

(** The shape of a two-byte count followed by the tail of a digest. *)
Lemma count_and_digest_layout (n : Z) (digest : bytes) :
  0 <= n < 65536 ->
  length digest = 32%nat ->
  length (big_endian n 2 ++ drop 2 digest) = 32%nat
  /\ take 2 (big_endian n 2 ++ drop 2 digest) = big_endian n 2
  /\ from_bytes_big (take 2 (big_endian n 2 ++ drop 2 digest)) = n
  /\ drop 2 (big_endian n 2 ++ drop 2 digest) = drop 2 digest
  /\ length (drop 2 digest) = 30%nat.
Proof.
  intros Hn Hd.
  assert (Ht : take 2 (big_endian n 2 ++ drop 2 digest) = big_endian n 2)
    by (apply take_app_length'; symmetry; apply length_big_endian).
  assert (Hl : length (drop 2 digest) = 30%nat) by (rewrite length_drop; lia).
  rewrite Ht. split; [|split; [|split; [|split]]].
  - rewrite length_app, length_big_endian. lia.
  - reflexivity.
  - rewrite from_bytes_big_big_endian by lia.
    apply Z.mod_small. change (256 ^ Z.of_nat 2) with 65536. lia.
  - apply drop_app_length'. symmetry. apply length_big_endian.
  - exact Hl.
Qed.

(** ** The bytecode hash *)

Section hash_byte_code.

Context {TxReceipt : Type} (self : ContractDeployer TxReceipt).

(** Up to 65535 words the hash is the two-byte word count followed by the
    last thirty bytes of the SHA-256 digest. *)
Lemma hash_byte_code_within (bytecode : bytes) :
  len bytecode / 32 <= 65535 ->
  _hash_byte_code self bytecode =
  Ok (big_endian (len bytecode / 32) 2 ++ drop 2 (sha256 bytecode)).
Proof.
  intros H. unfold _hash_byte_code, MAX_BYTE_CODE_LENGTH, sha256_hexdigest.
  pose proof (len_nonneg bytecode) as Hl.
  assert (0 <= len bytecode / 32) by (apply Z.div_pos; lia).
  destruct (Z.gtb_spec (len bytecode / 32) (2 ^ 16)); [lia|].
  rewrite fromhex_hex. cbn [mbind result_bind].
  rewrite to_bytes_in_range by (change (256 ^ Z.of_nat 2) with 65536; lia).
  reflexivity.
Qed.

(** At exactly 65536 words the explicit test ([> 2 ** 16]) lets the
    bytecode through and the two-byte conversion of the count overflows. *)
Lemma hash_byte_code_at_limit (bytecode : bytes) :
  len bytecode / 32 = 65536 ->
  _hash_byte_code self bytecode =
  Raise (OverflowError "int too big to convert").
Proof.
  intros H. unfold _hash_byte_code, MAX_BYTE_CODE_LENGTH, sha256_hexdigest.
  rewrite H. change (65536 >? 2 ^ 16) with false. cbv iota.
  rewrite fromhex_hex. reflexivity.
Qed.

Lemma hash_byte_code_above_limit (bytecode : bytes) :
  65536 < len bytecode / 32 ->
  _hash_byte_code self bytecode =
  Raise (OverflowError
    "ContractDeployer._hash_byte_code, bytecode length must be less than 2^16").
Proof.
  intros H. unfold _hash_byte_code, MAX_BYTE_CODE_LENGTH.
  destruct (Z.gtb_spec (len bytecode / 32) (2 ^ 16)); [reflexivity|lia].
Qed.

(** C1. [_hash_byte_code] raises [OverflowError] (the spec's
    [BytecodeTooLarge]) exactly when the bytecode has more than 65535
    words of 32 bytes, and returns a hash exactly when it has at most
    65535; on a bytecode of exactly 65536 words it raises, the error being
    the one of the two-byte conversion of the word count. *)
Theorem hash_byte_code_too_large (bytecode : bytes) :
  (raises_overflow (_hash_byte_code self bytecode) = true
     <-> 65535 < len bytecode / 32)
  /\ (returns (_hash_byte_code self bytecode) = true
     <-> len bytecode / 32 <= 65535)
  /\ (len bytecode / 32 = 65536 ->
      _hash_byte_code self bytecode =
      Raise (OverflowError "int too big to convert")).
Proof.
  destruct (Z.le_gt_cases (len bytecode / 32) 65535) as [Hle|Hgt].
  - rewrite (hash_byte_code_within _ Hle). cbn.
    repeat split; intros; try lia; discriminate.
  - destruct (Z.eq_dec (len bytecode / 32) 65536) as [He|Hne].
    + rewrite (hash_byte_code_at_limit _ He). cbn.
      repeat split; intros; try lia; discriminate.
    + rewrite hash_byte_code_above_limit by lia. cbn.
      repeat split; intros; try lia; discriminate.
Qed.

(** C2. For a bytecode of at most 65535 words, [_hash_byte_code] returns
    32 bytes: the first two are the word count [floor(len / 32)] written
    big-endian on 16 bits, the other thirty are bytes 2 to 31 of the
    SHA-256 digest of the bytecode. *)
Theorem hash_byte_code_format (bytecode : bytes) :
  len bytecode / 32 <= 65535 ->
  exists h : bytes,
    _hash_byte_code self bytecode = Ok h
    /\ length h = 32%nat
    /\ take 2 h = big_endian (len bytecode / 32) 2
    /\ from_bytes_big (take 2 h) = len bytecode / 32
    /\ drop 2 h = take 30 (drop 2 (sha256 bytecode))
    /\ length (drop 2 h) = 30%nat.
Proof.
  intros H. eexists. split; [apply hash_byte_code_within, H|].
  pose proof (len_nonneg bytecode) as Hl.
  assert (H0 : 0 <= len bytecode / 32) by (apply Z.div_pos; lia).
  destruct (count_and_digest_layout (len bytecode / 32) (sha256 bytecode))
    as (Hlen & Htake & Hcount & Hdrop & Htail);
    [lia|apply sha256_length|].
  rewrite Htake, Hdrop. split; [|split; [|split; [|split]]].
  - exact Hlen.
  - reflexivity.
  - rewrite <- Htake. exact Hcount.
  - symmetry. apply take_ge. lia.
  - exact Htail.
Qed.

End hash_byte_code.

Lemma hash_byte_code_too_large_witness :
  _hash_byte_code (sample_deployer []) (repeat x00 (Z.to_nat 2097152)) =
  Raise (OverflowError "int too big to convert").
Proof.
  destruct (hash_byte_code_too_large (sample_deployer [])
              (repeat x00 (Z.to_nat 2097152))) as (_ & _ & Hlimit).
  apply Hlimit. rewrite len_repeat by lia. reflexivity.
Defined.

Lemma hash_byte_code_format_witness :
  len (repeat "a"%byte 33) / 32 <= 65535
  /\ exists h : bytes,
      _hash_byte_code (sample_deployer []) (repeat "a"%byte 33) = Ok h
      /\ length h = 32%nat
      /\ take 2 h = big_endian (len (repeat "a"%byte 33) / 32) 2
      /\ from_bytes_big (take 2 h) = len (repeat "a"%byte 33) / 32
      /\ drop 2 h = take 30 (drop 2 (sha256 (repeat "a"%byte 33)))
      /\ length (drop 2 h) = 30%nat.
Proof.
  assert (H : len (repeat "a"%byte 33) / 32 <= 65535) by (vm_compute; discriminate).
  split; [exact H|].
  exact (hash_byte_code_format (sample_deployer []) (repeat "a"%byte 33) H).
Defined.

(** ** The salt test shared by the three salted entry points *)

Lemma salt_test_passes (salt : bytes) :
  length salt = 32%nat -> negb (len salt =? 32) = false.
Proof. intros H. unfold len. rewrite H. reflexivity. Qed.

Lemma salt_test_fails (salt : bytes) :
  length salt <> 32%nat -> negb (len salt =? 32) = true.
Proof.
  intros H. unfold len. destruct (Z.eqb_spec (Z.of_nat (length salt)) 32); [lia|].
  reflexivity.
Qed.

Lemma result_bind_ret {A} (r : result A) : (x ← r; Ok x) = r.
Proof. destruct r; reflexivity. Qed.

(** ** The calldata of [create] and [create2] *)

Section encode.

Context {TxReceipt : Type} (self : ContractDeployer TxReceipt).

Lemma encode_create2_eq (bytecode : bytes) (call_data salt : option bytes)
    (bytecode_hash : bytes) :
  length (default DEFAULT_SALT salt) = 32%nat ->
  _hash_byte_code self bytecode = Ok bytecode_hash ->
  encode_create2 self bytecode call_data salt =
  encodeABI (contract_deployer self) "create2"
    [ PyBytes (default DEFAULT_SALT salt); PyBytes bytecode_hash; PyInt 0;
      PyBytes (default EMPTY_BYTES call_data) ].
Proof.
  intros Hs Hh. unfold encode_create2.
  replace (match salt with Some s => s | None => DEFAULT_SALT end)
    with (default DEFAULT_SALT salt) by (destruct salt; reflexivity).
  replace (match call_data with Some c => c | None => EMPTY_BYTES end)
    with (default EMPTY_BYTES call_data) by (destruct call_data; reflexivity).
  rewrite (salt_test_passes _ Hs), Hh. cbn [mbind result_bind].
  apply result_bind_ret.
Qed.

Lemma encode_create_eq (bytecode : bytes) (call_data salt_data : option bytes)
    (bytecode_hash : bytes) :
  length (default DEFAULT_SALT salt_data) = 32%nat ->
  _hash_byte_code self bytecode = Ok bytecode_hash ->
  encode_create self bytecode call_data salt_data =
  encodeABI (contract_deployer self) "create"
    [ PyBytes (default DEFAULT_SALT salt_data); PyBytes bytecode_hash; PyInt 0;
      PyBytes (default EMPTY_BYTES call_data) ].
Proof.
  intros Hs Hh. unfold encode_create.
  replace (match salt_data with Some s => s | None => DEFAULT_SALT end)
    with (default DEFAULT_SALT salt_data) by (destruct salt_data; reflexivity).
  replace (match call_data with Some c => c | None => EMPTY_BYTES end)
    with (default EMPTY_BYTES call_data) by (destruct call_data; reflexivity).
  rewrite (salt_test_passes _ Hs), Hh. cbn [mbind result_bind].
  apply result_bind_ret.
Qed.

(** With no [call_data] given, the encoder receives the empty byte string
    itself as fourth argument: the module adds nothing to it, and the
    bytes standing for it in the calldata are the encoder's. *)
Lemma encode_create2_empty_call_data (bytecode : bytes) (salt : option bytes)
    (bytecode_hash : bytes) :
  length (default DEFAULT_SALT salt) = 32%nat ->
  _hash_byte_code self bytecode = Ok bytecode_hash ->
  encode_create2 self bytecode None salt =
  encode_create2 self bytecode (Some []) salt
  /\ encode_create2 self bytecode None salt =
     encodeABI (contract_deployer self) "create2"
       [ PyBytes (default DEFAULT_SALT salt); PyBytes bytecode_hash; PyInt 0;
         PyBytes [] ].
Proof.
  intros Hs Hh.
  rewrite !(encode_create2_eq _ _ _ _ Hs Hh). split; reflexivity.
Qed.

(** C7. [encode_create] and [encode_create2] hand the encoder the
    arguments (salt, bytecode hash, 0, call data), in this order, under
    the names "create" and "create2"; a salt or call data that is not
    given stands for 32 zero bytes, respectively the empty byte string. *)
Theorem encode_arguments (bytecode : bytes) (call_data salt : option bytes)
    (bytecode_hash : bytes) :
  length (default (repeat x00 32) salt) = 32%nat ->
  _hash_byte_code self bytecode = Ok bytecode_hash ->
  encode_create self bytecode call_data salt =
    encodeABI (contract_deployer self) "create"
      [ PyBytes (default (repeat x00 32) salt); PyBytes bytecode_hash;
        PyInt 0; PyBytes (default [] call_data) ]
  /\ encode_create2 self bytecode call_data salt =
    encodeABI (contract_deployer self) "create2"
      [ PyBytes (default (repeat x00 32) salt); PyBytes bytecode_hash;
        PyInt 0; PyBytes (default [] call_data) ].
Proof.
  intros Hs Hh. split.
  - apply encode_create_eq; assumption.
  - apply encode_create2_eq; assumption.
Qed.

End encode.

Lemma encode_arguments_witness :
  length (default (repeat x00 32) (@None bytes)) = 32%nat
  /\ _hash_byte_code (sample_deployer []) (repeat "a"%byte 33) =
     Ok (big_endian 1 2 ++ drop 2 (sha256 (repeat "a"%byte 33)))
  /\ encode_create (sample_deployer []) (repeat "a"%byte 33) None None =
      encodeABI (contract_deployer (sample_deployer [])) "create"
        [ PyBytes (repeat x00 32);
          PyBytes (big_endian 1 2 ++ drop 2 (sha256 (repeat "a"%byte 33)));
          PyInt 0; PyBytes [] ]
  /\ encode_create2 (sample_deployer []) (repeat "a"%byte 33) None None =
      encodeABI (contract_deployer (sample_deployer [])) "create2"
        [ PyBytes (repeat x00 32);
          PyBytes (big_endian 1 2 ++ drop 2 (sha256 (repeat "a"%byte 33)));
          PyInt 0; PyBytes [] ].
Proof.
  assert (Hs : length (default (repeat x00 32) (@None bytes)) = 32%nat)
    by reflexivity.
  assert (Hh : _hash_byte_code (sample_deployer []) (repeat "a"%byte 33) =
               Ok (big_endian 1 2 ++ drop 2 (sha256 (repeat "a"%byte 33))))
    by (vm_compute; reflexivity).
  split; [exact Hs|]. split; [exact Hh|].
  exact (encode_arguments (sample_deployer []) (repeat "a"%byte 33)
           None None _ Hs Hh).
Defined.

(** ** The nonce on 32 bytes *)

Lemma int_to_bytes_size (x : N) :
  Z.of_N x < 256 ^ Z.of_nat (N.to_nat ((N.size x + 7) / 8)).
Proof.
  rewrite N_nat_Z.
  pose proof (N.size_gt x) as Hgt.
  assert (Hle : (N.size x <= 8 * ((N.size x + 7) / 8))%N).
  { pose proof (N.Div0.mod_le (N.size x + 7) 8).
    pose proof (N.div_mod (N.size x + 7) 8 ltac:(lia)).
    pose proof (N.mod_upper_bound (N.size x + 7) 8 ltac:(lia)). lia. }
  assert (Hpow : (2 ^ N.size x <= 2 ^ (8 * ((N.size x + 7) / 8)))%N)
    by (apply N.pow_le_mono_r; lia).
  rewrite N.pow_mul_r in Hpow. change (2 ^ 8)%N with 256%N in Hpow.
  assert (Hx : (x < 256 ^ ((N.size x + 7) / 8))%N) by lia.
  apply N2Z.inj_lt in Hx. rewrite N2Z.inj_pow in Hx. exact Hx.
Qed.

(** The bytes written for a nonce read back, big-endian, as the nonce. *)
Lemma from_bytes_big_int_to_bytes (x : N) :
  from_bytes_big (int_to_bytes x) = Z.of_N x.
Proof.
  unfold int_to_bytes. rewrite from_bytes_big_big_endian by lia.
  apply Z.mod_small. split; [lia|apply int_to_bytes_size].
Qed.

Lemma length_int_to_bytes (x : N) :
  (x < 2 ^ 256)%N -> (length (int_to_bytes x) <= 32)%nat.
Proof.
  intros Hx. unfold int_to_bytes. rewrite length_big_endian.
  assert (Hs : (N.size x <= 256)%N).
  { destruct (N.le_gt_cases (N.size x) 256) as [H|H]; [exact H|].
    exfalso. pose proof (N.size_le x) as Hle.
    assert (Hp : (2 ^ 257 <= 2 ^ N.size x)%N) by (apply N.pow_le_mono_r; lia).
    assert (Hd : (N.succ_double x < 2 ^ 257)%N).
    { rewrite N.succ_double_spec. change (2 ^ 257)%N with (2 * 2 ^ 256)%N. lia. }
    lia. }
  assert (Hq : ((N.size x + 7) / 8 <= 32)%N).
  { transitivity ((256 + 7) / 8)%N; [|vm_compute; discriminate].
    apply N.Div0.div_le_mono. lia. }
  lia.
Qed.

(** ** The addresses *)

Section addresses.

Context {TxReceipt : Type}.
Variable get_data : HexStr -> result bytes.
Variable toChecksumAddress : string -> result HexStr.
Variable self : ContractDeployer TxReceipt.

Lemma CREATE_PREFIX_eq : CREATE_PREFIX = keccak (list_byte_of_string "zksyncCreate").
Proof. vm_compute. reflexivity. Qed.

Lemma CREATE2_PREFIX_eq :
  CREATE2_PREFIX = keccak (list_byte_of_string "zksyncCreate2").
Proof. vm_compute. reflexivity. Qed.

(** The last twenty bytes of a digest, as the slice [12:32] and as the
    open slice [12:] of the code. *)
Lemma keccak_low_20 (msg : bytes) :
  drop 12 (keccak msg) = slice 12 32 (keccak msg)
  /\ length (slice 12 32 (keccak msg)) = 20%nat.
Proof.
  unfold slice. rewrite take_ge by (rewrite keccak_length; lia).
  split; [reflexivity|]. rewrite length_drop, keccak_length. reflexivity.
Qed.

(** The text handed to the checksum formatter: "0x" and forty digits. *)
Lemma address_text_length (msg : bytes) :
  String.length ("0x" +:+ hex (drop 12 (keccak msg))) = 42%nat.
Proof.
  change ("0x" +:+ hex (drop 12 (keccak msg)))
    with (String "0" (String "x" (hex (drop 12 (keccak msg))))).
  cbn [String.length]. rewrite length_hex, length_drop, keccak_length.
  reflexivity.
Qed.

Lemma compute_l2_create2_address_eq (sender : HexStr) (sender_bytes : bytes)
    (bytecode constructor salt bytecode_hash : bytes) :
  length salt = 32%nat ->
  get_data sender = Ok sender_bytes ->
  _hash_byte_code self bytecode = Ok bytecode_hash ->
  compute_l2_create2_address get_data toChecksumAddress self
    sender bytecode constructor salt =
  toChecksumAddress
    ("0x" +:+ hex (drop 12 (keccak (CREATE2_PREFIX
                                     ++ pad_front_bytes sender_bytes 32
                                     ++ salt ++ bytecode_hash
                                     ++ keccak constructor)))).
Proof.
  intros Hs Hg Hh. unfold compute_l2_create2_address.
  rewrite (salt_test_passes _ Hs), Hg. cbn [mbind result_bind].
  rewrite Hh. reflexivity.
Qed.

(** C3. [compute_l2_create2_address] returns the checksum form of the
    last twenty bytes (the slice [12:32]) of
    keccak(keccak("zksyncCreate2") ++ sender padded with zeros on the left
    to 32 bytes ++ salt ++ bytecode hash ++ keccak(constructor)). *)
Theorem create2_address_derivation (sender : HexStr) (sender_bytes : bytes)
    (bytecode constructor salt : bytes) :
  get_data sender = Ok sender_bytes ->
  len bytecode / 32 <= 65535 ->
  length salt = 32%nat ->
  exists bytecode_hash : bytes,
    _hash_byte_code self bytecode = Ok bytecode_hash
    /\ compute_l2_create2_address get_data toChecksumAddress self
         sender bytecode constructor salt =
       toChecksumAddress
         ("0x" +:+ hex (slice 12 32
            (keccak (keccak (list_byte_of_string "zksyncCreate2")
                     ++ pad_front_bytes sender_bytes 32
                     ++ salt ++ bytecode_hash ++ keccak constructor))))
    /\ length (slice 12 32
            (keccak (keccak (list_byte_of_string "zksyncCreate2")
                     ++ pad_front_bytes sender_bytes 32
                     ++ salt ++ bytecode_hash ++ keccak constructor)))
       = 20%nat.
Proof.
  intros Hg Hw Hs. eexists. split; [apply hash_byte_code_within, Hw|].
  rewrite <- CREATE2_PREFIX_eq.
  split; [|apply keccak_low_20].
  rewrite <- (proj1 (keccak_low_20 _)).
  apply compute_l2_create2_address_eq; [exact Hs|exact Hg|].
  apply hash_byte_code_within, Hw.
Qed.

(** C4. The constructor hash that enters the CREATE2 preimage is keccak of
    the constructor bytes as they are passed, placed after the bytecode
    hash. For the empty byte string it is keccak of the empty input
    (c5d2...a470), which is neither keccak of a 32-byte zero word nor a
    SHA-256 value of the empty input. *)
Theorem create2_constructor_hash (sender : HexStr) (sender_bytes : bytes)
    (bytecode constructor salt : bytes) :
  get_data sender = Ok sender_bytes ->
  len bytecode / 32 <= 65535 ->
  length salt = 32%nat ->
  exists bytecode_hash : bytes,
    _hash_byte_code self bytecode = Ok bytecode_hash
    /\ compute_l2_create2_address get_data toChecksumAddress self
         sender bytecode constructor salt =
       toChecksumAddress
         ("0x" +:+ hex (drop 12 (keccak
            ((CREATE2_PREFIX ++ pad_front_bytes sender_bytes 32 ++ salt
              ++ bytecode_hash) ++ keccak constructor))))
    /\ (constructor = [] ->
        hex (keccak constructor) =
          "c5d2460186f7233c927e7db2dcc703c0e500b653ca82273b7bfad8045d85a470"
        /\ keccak constructor <> keccak (pad_front_bytes constructor 32)
        /\ keccak constructor <> sha256 constructor
        /\ _hash_byte_code self constructor <> Ok (keccak constructor)).
Proof.
  intros Hg Hw Hs. eexists. split; [apply hash_byte_code_within, Hw|].
  split.
  - rewrite (compute_l2_create2_address_eq sender sender_bytes bytecode
               constructor salt _ Hs Hg (hash_byte_code_within self bytecode Hw)).
    rewrite <- !app_assoc. reflexivity.
  - intros ->. split; [reflexivity|].
    repeat split; vm_compute; discriminate.
Qed.

(** C5. [compute_l2_create_address] returns the checksum form of the last
    twenty bytes (the slice [12:32]) of
    keccak(keccak("zksyncCreate") ++ sender padded with zeros on the left
    to 32 bytes ++ big-endian nonce padded with zeros on the left to 32
    bytes); the prefix is the constant keccak of the UTF-8 bytes of
    "zksyncCreate". *)
Theorem create_address_derivation (sender : HexStr) (sender_bytes : bytes)
    (nonce : N) :
  get_data sender = Ok sender_bytes ->
  compute_l2_create_address get_data toChecksumAddress self sender nonce =
    toChecksumAddress
      ("0x" +:+ hex (slice 12 32
         (keccak (keccak (list_byte_of_string "zksyncCreate")
                  ++ pad_front_bytes sender_bytes 32
                  ++ pad_front_bytes (int_to_bytes nonce) 32))))
  /\ length (slice 12 32
         (keccak (keccak (list_byte_of_string "zksyncCreate")
                  ++ pad_front_bytes sender_bytes 32
                  ++ pad_front_bytes (int_to_bytes nonce) 32))) = 20%nat
  /\ CREATE_PREFIX = keccak (list_byte_of_string "zksyncCreate")
  /\ hex CREATE_PREFIX =
     "63bae3a9951d38e8a3fbb7b70909afc1200610fc5bc55ade242f815974674f23"
  /\ from_bytes_big (pad_front_bytes (int_to_bytes nonce) 32) = Z.of_N nonce
  /\ ((nonce < 2 ^ 256)%N ->
      length (pad_front_bytes (int_to_bytes nonce) 32) = 32%nat).
Proof.
  intros Hg. rewrite <- CREATE_PREFIX_eq.
  split; [|split; [apply keccak_low_20|]].
  - rewrite <- (proj1 (keccak_low_20 _)).
    unfold compute_l2_create_address. rewrite Hg. reflexivity.
  - split; [reflexivity|]. split; [apply CREATE_PREFIX_hex|].
    split.
    + rewrite from_bytes_big_pad_front. apply from_bytes_big_int_to_bytes.
    + intros Hn. apply length_pad_front_bytes, length_int_to_bytes, Hn.
Qed.

End addresses.

Lemma create2_address_derivation_witness :
  sample_get_data sample_sender = Ok sample_sender_bytes
  /\ len (repeat "a"%byte 33) / 32 <= 65535
  /\ length sample_salt = 32%nat
  /\ exists bytecode_hash : bytes,
      _hash_byte_code (sample_deployer []) (repeat "a"%byte 33) = Ok bytecode_hash
      /\ compute_l2_create2_address sample_get_data sample_toChecksumAddress
           (sample_deployer []) sample_sender (repeat "a"%byte 33) [] sample_salt =
         sample_toChecksumAddress
           ("0x" +:+ hex (slice 12 32
              (keccak (keccak (list_byte_of_string "zksyncCreate2")
                       ++ pad_front_bytes sample_sender_bytes 32
                       ++ sample_salt ++ bytecode_hash ++ keccak []))))
      /\ length (slice 12 32
              (keccak (keccak (list_byte_of_string "zksyncCreate2")
                       ++ pad_front_bytes sample_sender_bytes 32
                       ++ sample_salt ++ bytecode_hash ++ keccak [])))
         = 20%nat.
Proof.
  assert (Hg : sample_get_data sample_sender = Ok sample_sender_bytes)
    by reflexivity.
  assert (Hw : len (repeat "a"%byte 33) / 32 <= 65535)
    by (vm_compute; discriminate).
  assert (Hs : length sample_salt = 32%nat) by reflexivity.
  split; [exact Hg|]. split; [exact Hw|]. split; [exact Hs|].
  exact (create2_address_derivation sample_get_data sample_toChecksumAddress
           (sample_deployer []) sample_sender sample_sender_bytes
           (repeat "a"%byte 33) [] sample_salt Hg Hw Hs).
Defined.

Lemma create2_constructor_hash_witness :
  sample_get_data sample_sender = Ok sample_sender_bytes
  /\ len (repeat "a"%byte 33) / 32 <= 65535
  /\ length sample_salt = 32%nat
  /\ exists bytecode_hash : bytes,
      _hash_byte_code (sample_deployer []) (repeat "a"%byte 33) = Ok bytecode_hash
      /\ compute_l2_create2_address sample_get_data sample_toChecksumAddress
           (sample_deployer []) sample_sender (repeat "a"%byte 33) [] sample_salt =
         sample_toChecksumAddress
           ("0x" +:+ hex (drop 12 (keccak
              ((CREATE2_PREFIX ++ pad_front_bytes sample_sender_bytes 32
                ++ sample_salt ++ bytecode_hash) ++ keccak []))))
      /\ (@nil byte = [] ->
          hex (keccak []) =
            "c5d2460186f7233c927e7db2dcc703c0e500b653ca82273b7bfad8045d85a470"
          /\ keccak [] <> keccak (pad_front_bytes [] 32)
          /\ keccak [] <> sha256 []
          /\ _hash_byte_code (sample_deployer []) [] <> Ok (keccak [])).
Proof.
  assert (Hg : sample_get_data sample_sender = Ok sample_sender_bytes)
    by reflexivity.
  assert (Hw : len (repeat "a"%byte 33) / 32 <= 65535)
    by (vm_compute; discriminate).
  assert (Hs : length sample_salt = 32%nat) by reflexivity.
  split; [exact Hg|]. split; [exact Hw|]. split; [exact Hs|].
  exact (create2_constructor_hash sample_get_data sample_toChecksumAddress
           (sample_deployer []) sample_sender sample_sender_bytes
           (repeat "a"%byte 33) [] sample_salt Hg Hw Hs).
Defined.

Lemma create_address_derivation_witness :
  sample_get_data sample_sender = Ok sample_sender_bytes
  /\ compute_l2_create_address sample_get_data sample_toChecksumAddress
       (sample_deployer []) sample_sender 258 =
     sample_toChecksumAddress
       ("0x" +:+ hex (slice 12 32
          (keccak (keccak (list_byte_of_string "zksyncCreate")
                   ++ pad_front_bytes sample_sender_bytes 32
                   ++ pad_front_bytes (int_to_bytes 258) 32)))).
Proof.
  assert (Hg : sample_get_data sample_sender = Ok sample_sender_bytes)
    by reflexivity.
  split; [exact Hg|].
  exact (proj1 (create_address_derivation sample_get_data
                  sample_toChecksumAddress (sample_deployer [])
                  sample_sender sample_sender_bytes 258 Hg)).
Defined.

(** The derivations evaluated. *)
Example create_address_of_sample :
  compute_l2_create_address sample_get_data sample_toChecksumAddress
    (sample_deployer []) sample_sender 0 =
  Ok "0x111c3e89ce80e62ee88318c2804920d4c96f92bb".
Proof. vm_compute. reflexivity. Qed.

Example create2_address_of_sample :
  compute_l2_create2_address sample_get_data sample_toChecksumAddress
    (sample_deployer []) sample_sender (repeat "a"%byte 33) [] sample_salt =
  Ok "0xc7b59df34d39af640a75179e00b5e540b8164141".
Proof. vm_compute. reflexivity. Qed.

(** ** Salts of the wrong length *)

Section salt.

Context {TxReceipt : Type}.
Variable get_data : HexStr -> result bytes.
Variable toChecksumAddress : string -> result HexStr.
Variable self : ContractDeployer TxReceipt.

(** C6. With a salt given whose length is not 32, each of
    [compute_l2_create2_address], [encode_create] and [encode_create2]
    raises [OverflowError] "Salt data must be 32 length" (the spec's
    [InvalidSaltLength]) and so returns nothing. *)
Theorem salt_length_checked (sender : HexStr)
    (bytecode constructor salt : bytes) (call_data : option bytes) :
  length salt <> 32%nat ->
  compute_l2_create2_address get_data toChecksumAddress self
    sender bytecode constructor salt =
    Raise (OverflowError "Salt data must be 32 length")
  /\ encode_create self bytecode call_data (Some salt) =
    Raise (OverflowError "Salt data must be 32 length")
  /\ encode_create2 self bytecode call_data (Some salt) =
    Raise (OverflowError "Salt data must be 32 length").
Proof.
  intros Hs.
  unfold compute_l2_create2_address, encode_create, encode_create2.
  rewrite (salt_test_fails _ Hs). repeat split.
Qed.

(** C10. Nothing requires the bytecode length to be a multiple of 32: a
    bytecode of at most 65535 complete words that ends in a partial word
    is hashed, the two-byte prefix counting the complete words only while
    the digest is the one of all the bytes; and [encode_create],
    [encode_create2] and [compute_l2_create2_address] go on with that
    hash to the encoder, respectively to the address. *)
Theorem partial_word_accepted (sender : HexStr) (sender_bytes : bytes)
    (bytecode constructor salt : bytes) (call_data : option bytes) :
  len bytecode / 32 <= 65535 ->
  len bytecode mod 32 <> 0 ->
  length salt = 32%nat ->
  get_data sender = Ok sender_bytes ->
  exists h : bytes,
    _hash_byte_code self bytecode = Ok h
    /\ 32 * from_bytes_big (take 2 h) < len bytecode
         < 32 * (from_bytes_big (take 2 h) + 1)
    /\ drop 2 h = drop 2 (sha256 bytecode)
    /\ encode_create self bytecode call_data (Some salt) =
       encodeABI (contract_deployer self) "create"
         [PyBytes salt; PyBytes h; PyInt 0; PyBytes (default [] call_data)]
    /\ encode_create2 self bytecode call_data (Some salt) =
       encodeABI (contract_deployer self) "create2"
         [PyBytes salt; PyBytes h; PyInt 0; PyBytes (default [] call_data)]
    /\ compute_l2_create2_address get_data toChecksumAddress self
         sender bytecode constructor salt =
       toChecksumAddress
         ("0x" +:+ hex (drop 12 (keccak (CREATE2_PREFIX
                                          ++ pad_front_bytes sender_bytes 32
                                          ++ salt ++ h
                                          ++ keccak constructor)))).
Proof.
  intros Hw Hm Hs Hg.
  pose proof (hash_byte_code_within self bytecode Hw) as Hh.
  pose proof (len_nonneg bytecode) as Hl.
  assert (H0 : 0 <= len bytecode / 32) by (apply Z.div_pos; lia).
  destruct (count_and_digest_layout (len bytecode / 32) (sha256 bytecode))
    as (_ & _ & Hcount & Hdrop & _); [lia|apply sha256_length|].
  eexists. split; [exact Hh|].
  split; [|split; [|split; [|split]]].
  - rewrite Hcount.
    pose proof (Z.div_mod (len bytecode) 32 ltac:(lia)).
    pose proof (Z.mod_pos_bound (len bytecode) 32 ltac:(lia)). lia.
  - exact Hdrop.
  - apply (encode_create_eq self bytecode call_data (Some salt) _ Hs Hh).
  - apply (encode_create2_eq self bytecode call_data (Some salt) _ Hs Hh).
  - apply compute_l2_create2_address_eq; assumption.
Qed.

End salt.

Lemma salt_length_checked_witness :
  (length (repeat x00 31) <> 32%nat
   /\ compute_l2_create2_address sample_get_data sample_toChecksumAddress
        (sample_deployer []) sample_sender [] [] (repeat x00 31) =
      Raise (OverflowError "Salt data must be 32 length")
   /\ encode_create (sample_deployer []) [] None (Some (repeat x00 31)) =
      Raise (OverflowError "Salt data must be 32 length")
   /\ encode_create2 (sample_deployer []) [] None (Some (repeat x00 31)) =
      Raise (OverflowError "Salt data must be 32 length"))
  /\ (length (repeat x00 33) <> 32%nat
   /\ compute_l2_create2_address sample_get_data sample_toChecksumAddress
        (sample_deployer []) sample_sender [] [] (repeat x00 33) =
      Raise (OverflowError "Salt data must be 32 length")
   /\ encode_create (sample_deployer []) [] None (Some (repeat x00 33)) =
      Raise (OverflowError "Salt data must be 32 length")
   /\ encode_create2 (sample_deployer []) [] None (Some (repeat x00 33)) =
      Raise (OverflowError "Salt data must be 32 length")).
Proof.
  assert (H31 : length (repeat x00 31) <> 32%nat) by discriminate.
  assert (H33 : length (repeat x00 33) <> 32%nat) by discriminate.
  split; (split; [assumption|]).
  - exact (salt_length_checked sample_get_data sample_toChecksumAddress
             (sample_deployer []) sample_sender [] [] (repeat x00 31) None H31).
  - exact (salt_length_checked sample_get_data sample_toChecksumAddress
             (sample_deployer []) sample_sender [] [] (repeat x00 33) None H33).
Defined.

Lemma partial_word_accepted_witness :
  len (repeat "a"%byte 33) / 32 <= 65535
  /\ len (repeat "a"%byte 33) mod 32 <> 0
  /\ length sample_salt = 32%nat
  /\ sample_get_data sample_sender = Ok sample_sender_bytes
  /\ exists h : bytes,
      _hash_byte_code (sample_deployer []) (repeat "a"%byte 33) = Ok h
      /\ 32 * from_bytes_big (take 2 h) < len (repeat "a"%byte 33)
           < 32 * (from_bytes_big (take 2 h) + 1)
      /\ drop 2 h = drop 2 (sha256 (repeat "a"%byte 33))
      /\ encode_create (sample_deployer []) (repeat "a"%byte 33) None
           (Some sample_salt) =
         encodeABI (contract_deployer (sample_deployer [])) "create"
           [PyBytes sample_salt; PyBytes h; PyInt 0; PyBytes []]
      /\ encode_create2 (sample_deployer []) (repeat "a"%byte 33) None
           (Some sample_salt) =
         encodeABI (contract_deployer (sample_deployer [])) "create2"
           [PyBytes sample_salt; PyBytes h; PyInt 0; PyBytes []]
      /\ compute_l2_create2_address sample_get_data sample_toChecksumAddress
           (sample_deployer []) sample_sender (repeat "a"%byte 33) []
           sample_salt =
         sample_toChecksumAddress
           ("0x" +:+ hex (drop 12 (keccak (CREATE2_PREFIX
                                            ++ pad_front_bytes sample_sender_bytes 32
                                            ++ sample_salt ++ h
                                            ++ keccak [])))).
Proof.
  assert (Hw : len (repeat "a"%byte 33) / 32 <= 65535)
    by (vm_compute; discriminate).
  assert (Hm : len (repeat "a"%byte 33) mod 32 <> 0)
    by (vm_compute; discriminate).
  assert (Hs : length sample_salt = 32%nat) by reflexivity.
  assert (Hg : sample_get_data sample_sender = Ok sample_sender_bytes)
    by reflexivity.
  split; [exact Hw|]. split; [exact Hm|]. split; [exact Hs|]. split; [exact Hg|].
  exact (partial_word_accepted sample_get_data sample_toChecksumAddress
           (sample_deployer []) sample_sender sample_sender_bytes
           (repeat "a"%byte 33) [] sample_salt None Hw Hm Hs Hg).
Defined.

(** ** The deployed address in a receipt *)

Section receipt.

Context {TxReceipt : Type} (self : ContractDeployer TxReceipt).

(** C9. With [entries] the decoded "ContractDeployed" entries of the
    receipt, [extract_contract_address] returns the [contractAddress]
    argument of the second one (index 1); it raises [IndexError] (the
    spec's [EventNotFound]) when there are fewer than two entries, so
    also when there is exactly one, and [KeyError] (the spec's
    [MissingField]) when the second entry has no [contractAddress]. *)
Theorem extract_contract_address_second_entry (receipt : TxReceipt)
    (entries : list EventData) :
  ContractDeployed_processReceipt (contract_deployer self) receipt
    = Ok entries ->
  (forall (ev : EventData) (addr : HexStr),
      entries !! 1%nat = Some ev ->
      args ev !! "contractAddress" = Some addr ->
      extract_contract_address self receipt = Ok addr)
  /\ ((length entries < 2)%nat ->
      extract_contract_address self receipt =
      Raise (IndexError "tuple index out of range"))
  /\ (forall ev : EventData,
      entries = [ev] ->
      extract_contract_address self receipt =
      Raise (IndexError "tuple index out of range"))
  /\ (forall ev : EventData,
      entries !! 1%nat = Some ev ->
      args ev !! "contractAddress" = None ->
      extract_contract_address self receipt =
      Raise (KeyError "contractAddress")).
Proof.
  intros Hp. unfold extract_contract_address. rewrite Hp.
  cbn [mbind result_bind]. repeat split.
  - intros ev addr -> ->. reflexivity.
  - intros Hl. rewrite (lookup_ge_None_2 entries 1) by lia. reflexivity.
  - intros ev ->. reflexivity.
  - intros ev -> ->. reflexivity.
Qed.

End receipt.

Lemma extract_contract_address_second_entry_witness :
  extract_contract_address (sample_deployer [sample_other; sample_deployed]) tt
    = Ok "0x111C3E89Ce80e62EE88318C2804920D4c96f92bb"
  /\ extract_contract_address (sample_deployer [sample_deployed]) tt
    = Raise (IndexError "tuple index out of range")
  /\ extract_contract_address (sample_deployer [sample_deployed; sample_other]) tt
    = Raise (KeyError "contractAddress").
Proof.
  split; [|split].
  - exact (proj1 (extract_contract_address_second_entry
                    (sample_deployer [sample_other; sample_deployed]) tt
                    [sample_other; sample_deployed] eq_refl)
             sample_deployed _ eq_refl eq_refl).
  - exact (proj1 (proj2 (proj2 (extract_contract_address_second_entry
                    (sample_deployer [sample_deployed]) tt
                    [sample_deployed] eq_refl)))
             sample_deployed eq_refl).
  - exact (proj2 (proj2 (proj2 (extract_contract_address_second_entry
                    (sample_deployer [sample_deployed; sample_other]) tt
                    [sample_deployed; sample_other] eq_refl)))
             sample_other eq_refl eq_refl).
Defined.

(** ** Further properties of the bytecode hash *)

Section hash_byte_code_more.

Context {TxReceipt : Type} (self : ContractDeployer TxReceipt).

Lemma words_of_length (n : Z) :
  (n / 32 <= 65535 <-> n < 2097152)
  /\ (n / 32 = 65536 <-> 2097152 <= n < 2097184)
  /\ (65536 < n / 32 <-> 2097184 <= n).
Proof.
  pose proof (Z.div_mod n 32 ltac:(lia)).
  pose proof (Z.mod_pos_bound n 32 ltac:(lia)).
  lia.
Qed.

(** X1. The outcome of [_hash_byte_code] by the length in bytes: a hash up
    to 2097151 bytes, the error of the two-byte conversion from 2097152 to
    2097183 bytes, and the function's own error message only from 2097184
    bytes (65537 words) on. *)
Theorem hash_byte_code_by_length (bytecode : bytes) :
  ((exists h : bytes, _hash_byte_code self bytecode = Ok h)
     <-> len bytecode < 2097152)
  /\ (_hash_byte_code self bytecode =
        Raise (OverflowError "int too big to convert")
      <-> 2097152 <= len bytecode < 2097184)
  /\ (_hash_byte_code self bytecode =
        Raise (OverflowError
          "ContractDeployer._hash_byte_code, bytecode length must be less than 2^16")
      <-> 2097184 <= len bytecode).
Proof.
  destruct (words_of_length (len bytecode)) as (Hin & Hat & Hout).
  destruct (Z.le_gt_cases (len bytecode / 32) 65535) as [Hle|Hgt].
  - rewrite (hash_byte_code_within self _ Hle).
    split; [split; [intros _; lia|intros _; eauto]|].
    split; (split; [discriminate|intros; lia]).
  - destruct (Z.eq_dec (len bytecode / 32) 65536) as [He|Hne].
    + rewrite (hash_byte_code_at_limit self _ He).
      split; [split; [intros [h Hh]; discriminate|intros; lia]|].
      split; [split; [intros _; lia|reflexivity]|].
      split; [discriminate|intros; lia].
    + rewrite (hash_byte_code_above_limit self bytecode) by lia.
      split; [split; [intros [h Hh]; discriminate|intros; lia]|].
      split; [split; [discriminate|intros; lia]|].
      split; [intros _; lia|reflexivity].
Qed.

(** X2. A bytecode shorter than one word, the empty one included, is not
    refused: its hash is two zero bytes followed by the last thirty bytes
    of its SHA-256 digest. *)
Theorem hash_byte_code_below_one_word (bytecode : bytes) :
  (length bytecode < 32)%nat ->
  _hash_byte_code self bytecode = Ok ([x00; x00] ++ drop 2 (sha256 bytecode)).
Proof.
  intros Hl.
  assert (Hz : len bytecode / 32 = 0)
    by (apply Z.div_small; unfold len; lia).
  rewrite hash_byte_code_within by lia. rewrite Hz. reflexivity.
Qed.

(** X3. The detour of the digest through its hexadecimal text and back
    never raises and gives the 32 digest bytes: the text has 64 characters
    and [bytes.fromhex] reads it back as the digest. *)
Theorem digest_text_round_trip (bytecode : bytes) :
  fromhex (sha256_hexdigest bytecode) = Ok (sha256 bytecode)
  /\ String.length (sha256_hexdigest bytecode) = 64%nat
  /\ length (sha256 bytecode) = 32%nat.
Proof.
  unfold sha256_hexdigest. split; [apply fromhex_hex|].
  rewrite length_hex, sha256_length. split; reflexivity.
Qed.

End hash_byte_code_more.

Lemma hash_byte_code_below_one_word_witness :
  (length (repeat "a"%byte 31) < 32)%nat
  /\ _hash_byte_code (sample_deployer []) (repeat "a"%byte 31) =
     Ok ([x00; x00] ++ drop 2 (sha256 (repeat "a"%byte 31))).
Proof.
  assert (H : (length (repeat "a"%byte 31) < 32)%nat) by (cbn; lia).
  split; [exact H|].
  exact (hash_byte_code_below_one_word (sample_deployer []) _ H).
Defined.

(** ** How the entry points agree *)

Lemma all_lower_hex (b : bytes) :
  forallb is_lower_hex (list_ascii_of_string (hex b)) = true.
Proof.
  unfold hex. rewrite list_ascii_of_string_of_list_ascii.
  induction b as [|a b IH]; [reflexivity|].
  cbn [flat_map]. rewrite forallb_app, IH, andb_true_r.
  destruct a; reflexivity.
Qed.

Section agreement.

Context {TxReceipt : Type}.
Variable get_data : HexStr -> result bytes.
Variable toChecksumAddress : string -> result HexStr.
Variable self : ContractDeployer TxReceipt.

Lemma hash_byte_code_raises (bytecode : bytes) :
  65535 < len bytecode / 32 ->
  exists msg : string,
    _hash_byte_code self bytecode = Raise (OverflowError msg).
Proof.
  intros H. destruct (Z.eq_dec (len bytecode / 32) 65536) as [He|Hne].
  - eexists. apply hash_byte_code_at_limit, He.
  - eexists. apply hash_byte_code_above_limit. lia.
Qed.

(** X4. [encode_create], [encode_create2] and [compute_l2_create2_address]
    accept the same salts and bytecodes: with a 32-byte salt and at most
    65535 words they go on with one and the same bytecode hash, to the
    encoder respectively to the address; otherwise the three of them raise
    one and the same [OverflowError], and neither the encoder nor the
    checksum formatter is reached. *)
Theorem validation_agrees (sender : HexStr) (sender_bytes : bytes)
    (bytecode constructor salt : bytes) (call_data : option bytes) :
  get_data sender = Ok sender_bytes ->
  (length salt = 32%nat /\ len bytecode / 32 <= 65535
   /\ exists h : bytes,
       _hash_byte_code self bytecode = Ok h
       /\ encode_create self bytecode call_data (Some salt) =
          encodeABI (contract_deployer self) "create"
            [PyBytes salt; PyBytes h; PyInt 0; PyBytes (default [] call_data)]
       /\ encode_create2 self bytecode call_data (Some salt) =
          encodeABI (contract_deployer self) "create2"
            [PyBytes salt; PyBytes h; PyInt 0; PyBytes (default [] call_data)]
       /\ compute_l2_create2_address get_data toChecksumAddress self
            sender bytecode constructor salt =
          toChecksumAddress
            ("0x" +:+ hex (drop 12 (keccak (CREATE2_PREFIX
                                             ++ pad_front_bytes sender_bytes 32
                                             ++ salt ++ h
                                             ++ keccak constructor)))))
  \/ ((length salt <> 32%nat \/ 65535 < len bytecode / 32)
      /\ exists msg : string,
          encode_create self bytecode call_data (Some salt) =
            Raise (OverflowError msg)
          /\ encode_create2 self bytecode call_data (Some salt) =
            Raise (OverflowError msg)
          /\ compute_l2_create2_address get_data toChecksumAddress self
               sender bytecode constructor salt =
            Raise (OverflowError msg)).
Proof.
  intros Hg.
  destruct (Nat.eq_dec (length salt) 32%nat) as [Hs|Hs].
  - destruct (Z.le_gt_cases (len bytecode / 32) 65535) as [Hw|Hw].
    + left. split; [exact Hs|]. split; [exact Hw|].
      pose proof (hash_byte_code_within self bytecode Hw) as Hh.
      eexists. split; [exact Hh|].
      split; [|split].
      * apply (encode_create_eq self bytecode call_data (Some salt) _ Hs Hh).
      * apply (encode_create2_eq self bytecode call_data (Some salt) _ Hs Hh).
      * apply compute_l2_create2_address_eq; assumption.
    + right. split; [right; lia|].
      destruct (hash_byte_code_raises bytecode) as [msg Hm]; [lia|].
      exists msg.
      unfold encode_create, encode_create2, compute_l2_create2_address.
      rewrite (salt_test_passes _ Hs), Hg, Hm. repeat split.
  - right. split; [left; exact Hs|].
    exists "Salt data must be 32 length"%string.
    unfold encode_create, encode_create2, compute_l2_create2_address.
    rewrite (salt_test_fails _ Hs). repeat split.
Qed.

(** X5. A sender that [get_data] refuses: both address functions raise
    [get_data]'s exception, [compute_l2_create2_address] also when the
    bytecode is too large (the sender is read before the bytecode is
    hashed), except that a salt of the wrong length is reported first. *)
Theorem sender_error_order (sender : HexStr) (e : exn)
    (bytecode constructor salt : bytes) (nonce : N) :
  get_data sender = Raise e ->
  compute_l2_create_address get_data toChecksumAddress self sender nonce =
    Raise e
  /\ (length salt = 32%nat ->
      compute_l2_create2_address get_data toChecksumAddress self
        sender bytecode constructor salt = Raise e)
  /\ (length salt <> 32%nat ->
      compute_l2_create2_address get_data toChecksumAddress self
        sender bytecode constructor salt =
      Raise (OverflowError "Salt data must be 32 length")).
Proof.
  intros Hg. unfold compute_l2_create_address, compute_l2_create2_address.
  rewrite Hg. split; [reflexivity|]. split; intros Hs.
  - rewrite (salt_test_passes _ Hs). reflexivity.
  - rewrite (salt_test_fails _ Hs). reflexivity.
Qed.

(** X6. What the two address functions hand to the checksum formatter is
    always the text of a 20-byte address: "0x" followed by forty lower-case
    hexadecimal digits, 42 characters in all, which read back as the
    twenty bytes. *)
Theorem address_text_well_formed (sender : HexStr) (sender_bytes : bytes)
    (bytecode constructor salt : bytes) (nonce : N) :
  get_data sender = Ok sender_bytes ->
  len bytecode / 32 <= 65535 ->
  length salt = 32%nat ->
  exists create_bytes create2_bytes : bytes,
    compute_l2_create_address get_data toChecksumAddress self sender nonce =
      toChecksumAddress ("0x" +:+ hex create_bytes)
    /\ compute_l2_create2_address get_data toChecksumAddress self
         sender bytecode constructor salt =
      toChecksumAddress ("0x" +:+ hex create2_bytes)
    /\ Forall (fun address : bytes =>
         length address = 20%nat
         /\ String.length ("0x" +:+ hex address) = 42%nat
         /\ forallb is_lower_hex (list_ascii_of_string (hex address)) = true
         /\ fromhex (hex address) = Ok address)
       [create_bytes; create2_bytes].
Proof.
  intros Hg Hw Hs.
  pose proof (hash_byte_code_within self bytecode Hw) as Hh.
  eexists. eexists. split; [|split].
  - unfold compute_l2_create_address. rewrite Hg. reflexivity.
  - apply (compute_l2_create2_address_eq get_data toChecksumAddress self
             sender sender_bytes bytecode constructor salt _ Hs Hg Hh).
  - repeat constructor;
      try (rewrite length_drop, keccak_length; reflexivity);
      try apply address_text_length;
      try apply all_lower_hex;
      try apply fromhex_hex.
Qed.

End agreement.

Lemma validation_agrees_witness :
  sample_get_data sample_sender = Ok sample_sender_bytes
  /\ ((length (repeat x00 31) <> 32%nat
       \/ 65535 < len (repeat "a"%byte 33) / 32)
      /\ exists msg : string,
          encode_create (sample_deployer []) (repeat "a"%byte 33) None
            (Some (repeat x00 31)) = Raise (OverflowError msg)
          /\ encode_create2 (sample_deployer []) (repeat "a"%byte 33) None
            (Some (repeat x00 31)) = Raise (OverflowError msg)
          /\ compute_l2_create2_address sample_get_data
               sample_toChecksumAddress (sample_deployer []) sample_sender
               (repeat "a"%byte 33) [] (repeat x00 31) =
            Raise (OverflowError msg)).
Proof.
  assert (Hg : sample_get_data sample_sender = Ok sample_sender_bytes)
    by reflexivity.
  split; [exact Hg|].
  destruct (validation_agrees sample_get_data sample_toChecksumAddress
              (sample_deployer []) sample_sender sample_sender_bytes
              (repeat "a"%byte 33) [] (repeat x00 31) None Hg)
    as [(Hs & _)|Hbad].
  - discriminate Hs.
  - exact Hbad.
Defined.

Lemma sender_error_order_witness :
  sample_get_data "0xzz" =
    Raise (ValueError
      "non-hexadecimal number found in fromhex() arg at position 0")
  /\ compute_l2_create_address sample_get_data sample_toChecksumAddress
       (sample_deployer []) "0xzz" 0 =
     Raise (ValueError
       "non-hexadecimal number found in fromhex() arg at position 0").
Proof.
  assert (Hg : sample_get_data "0xzz" =
               Raise (ValueError
                 "non-hexadecimal number found in fromhex() arg at position 0"))
    by reflexivity.
  split; [exact Hg|].
  exact (proj1 (sender_error_order sample_get_data sample_toChecksumAddress
                  (sample_deployer []) "0xzz" _ [] [] [] 0 Hg)).
Defined.

Lemma address_text_well_formed_witness :
  sample_get_data sample_sender = Ok sample_sender_bytes
  /\ len (repeat "a"%byte 33) / 32 <= 65535
  /\ length sample_salt = 32%nat
  /\ exists create_bytes create2_bytes : bytes,
    compute_l2_create_address sample_get_data sample_toChecksumAddress
      (sample_deployer []) sample_sender 0 =
      sample_toChecksumAddress ("0x" +:+ hex create_bytes)
    /\ compute_l2_create2_address sample_get_data sample_toChecksumAddress
         (sample_deployer []) sample_sender (repeat "a"%byte 33) []
         sample_salt =
      sample_toChecksumAddress ("0x" +:+ hex create2_bytes)
    /\ Forall (fun address : bytes =>
         length address = 20%nat
         /\ String.length ("0x" +:+ hex address) = 42%nat
         /\ forallb is_lower_hex (list_ascii_of_string (hex address)) = true
         /\ fromhex (hex address) = Ok address)
       [create_bytes; create2_bytes].
Proof.
  assert (Hg : sample_get_data sample_sender = Ok sample_sender_bytes)
    by reflexivity.
  assert (Hw : len (repeat "a"%byte 33) / 32 <= 65535)
    by (vm_compute; discriminate).
  assert (Hs : length sample_salt = 32%nat) by reflexivity.
  split; [exact Hg|]. split; [exact Hw|]. split; [exact Hs|].
  exact (address_text_well_formed sample_get_data sample_toChecksumAddress
           (sample_deployer []) sample_sender sample_sender_bytes
           (repeat "a"%byte 33) [] sample_salt 0 Hg Hw Hs).
Defined.

(** ** What a returned address says about the receipt *)

Section receipt_more.

Context {TxReceipt : Type} (self : ContractDeployer TxReceipt).

(** X7. [extract_contract_address] returns an address only when the decoder
    returned at least two entries and the address is the [contractAddress]
    argument of the second one; and an exception of the decoder is passed
    on as it is. *)
Theorem extract_contract_address_sound (receipt : TxReceipt) :
  (forall addr : HexStr,
      extract_contract_address self receipt = Ok addr ->
      exists (entries : list EventData) (ev : EventData),
        ContractDeployed_processReceipt (contract_deployer self) receipt
          = Ok entries
        /\ (2 <= length entries)%nat
        /\ entries !! 1%nat = Some ev
        /\ args ev !! "contractAddress" = Some addr)
  /\ (forall e : exn,
      ContractDeployed_processReceipt (contract_deployer self) receipt
        = Raise e ->
      extract_contract_address self receipt = Raise e).
Proof.
  unfold extract_contract_address.
  destruct (ContractDeployed_processReceipt _ receipt) as [entries|e0];
    cbn [mbind result_bind]; split; try discriminate.
  - intros addr Hr.
    destruct (entries !! 1%nat) as [ev|] eqn:He; [|discriminate].
    destruct (args ev !! "contractAddress") as [a|] eqn:Ha; [|discriminate].
    injection Hr as ->. exists entries, ev.
    repeat split; try assumption.
    apply lookup_lt_Some in He. lia.
  - intros e [= ->]. reflexivity.
Qed.

End receipt_more.

(** ** The ABI cache *)

Section abi_cache_properties.

Context {TxReceipt ABI E : Type}.

#[local] Abbreviation world := (world ABI E).
#[local] Abbreviation Web3 := (Web3 TxReceipt ABI E).

Lemma default_when_cached (w : world) (abi : ABI) :
  icontract_deployer_abi_cache w = Some abi ->
  _icontract_deployer_abi_default w = (inr (Some abi), w).
Proof.
  intros Hc. unfold _icontract_deployer_abi_default. rewrite Hc. reflexivity.
Qed.

Lemma init_world (web3 : Web3) (abi : option ABI) (w : world) :
  (__init__ web3 abi w).2 =
  match abi with
  | None => (_icontract_deployer_abi_default w).2
  | Some _ => w
  end.
Proof.
  unfold __init__. destruct abi as [a|].
  - destruct (eth_contract web3 (Some a)); reflexivity.
  - destruct (_icontract_deployer_abi_default w) as [[e|a] w'];
      [reflexivity|]. destruct (eth_contract web3 a); reflexivity.
Qed.

Lemma step_keeps_cache (w w' : world) (abi : ABI) :
  icontract_deployer_abi_cache w = Some abi ->
  step (TxReceipt := TxReceipt) w w' ->
  icontract_deployer_abi_cache w' = Some abi /\ opened w' = opened w.
Proof.
  intros Hc Hstep. destruct Hstep as [w|web3 a w|w content].
  - rewrite (default_when_cached w abi Hc). split; [exact Hc|reflexivity].
  - rewrite init_world. destruct a as [a|]; [split; [exact Hc|reflexivity]|].
    rewrite (default_when_cached w abi Hc). split; [exact Hc|reflexivity].
  - split; [exact Hc|reflexivity].
Qed.

(** X8. Once an ABI is cached it stays: whatever calls of the default,
    constructions and changes of the file follow, the cache holds the same
    ABI, the file is not opened again, and the default returns that ABI
    without touching the world. *)
Theorem cache_is_permanent (w w' : world) (abi : ABI) :
  icontract_deployer_abi_cache w = Some abi ->
  rtc (step (TxReceipt := TxReceipt)) w w' ->
  icontract_deployer_abi_cache w' = Some abi
  /\ opened w' = opened w
  /\ _icontract_deployer_abi_default w' = (inr (Some abi), w').
Proof.
  intros Hc Hsteps. induction Hsteps as [w|w w1 w2 Hstep Hsteps IH].
  - split; [exact Hc|]. split; [reflexivity|].
    apply default_when_cached, Hc.
  - destruct (step_keeps_cache w w1 abi Hc Hstep) as [Hc1 Ho1].
    destruct (IH Hc1) as (Hc2 & Ho2 & Hd2).
    split; [exact Hc2|]. split; [congruence|exact Hd2].
Qed.

Lemma default_first_call (w : world) (abi : ABI) :
  icontract_deployer_abi_cache w = None ->
  IContractDeployer_json w = inr (Some abi) ->
  _icontract_deployer_abi_default w =
    (inr (Some abi), World (Some abi) (inr (Some abi)) (S (opened w))).
Proof.
  intros Hc Hf. unfold _icontract_deployer_abi_default. rewrite Hc. cbn.
  rewrite Hf. reflexivity.
Qed.

(** X9. With an empty cache and a file that parses to an ABI, the first
    call opens the file and caches the ABI, and any number of calls in a
    row opens the file exactly once. *)
Theorem default_reads_once (w : world) (abi : ABI) (n : nat) :
  icontract_deployer_abi_cache w = None ->
  IContractDeployer_json w = inr (Some abi) ->
  _icontract_deployer_abi_default w =
    (inr (Some abi), World (Some abi) (inr (Some abi)) (S (opened w)))
  /\ after_calls (S n) w =
     World (Some abi) (inr (Some abi)) (S (opened w)).
Proof.
  intros Hc Hf. pose proof (default_first_call w abi Hc Hf) as H1.
  split; [exact H1|].
  induction n as [|n IH].
  - unfold after_calls. cbn. rewrite H1. reflexivity.
  - unfold after_calls in *. rewrite Nat.iter_succ, IH. reflexivity.
Qed.

(** X10. Nothing but an ABI is cached: while the file cannot be read or
    parses to [null], every call opens it again, gives the exception
    respectively [None] and leaves the cache empty, so that [n] calls open
    the file [n] times. *)
Theorem unusable_file_is_read_again (w : world) (n : nat) :
  icontract_deployer_abi_cache w = None ->
  (forall abi : ABI, IContractDeployer_json w <> inr (Some abi)) ->
  after_calls n w = World None (IContractDeployer_json w) (n + opened w)
  /\ (_icontract_deployer_abi_default (after_calls n w)).1 =
     IContractDeployer_json w.
Proof.
  intros Hc Hf.
  assert (Hstep : forall k : nat,
            _icontract_deployer_abi_default
              (World None (IContractDeployer_json w) k) =
            (IContractDeployer_json w,
             World None (IContractDeployer_json w) (S k))).
  { intros k. unfold _icontract_deployer_abi_default. cbn.
    destruct (IContractDeployer_json w) as [e|[abi|]] eqn:Hj;
      [reflexivity| |reflexivity].
    exfalso. apply (Hf abi). reflexivity. }
  assert (Hn : after_calls n w =
               World None (IContractDeployer_json w) (n + opened w)).
  { induction n as [|n IH].
    - unfold after_calls. cbn. destruct w as [c f o]. cbn in *. congruence.
    - unfold after_calls in *. rewrite Nat.iter_succ, IH, Hstep. reflexivity. }
  split; [exact Hn|]. rewrite Hn, Hstep. reflexivity.
Qed.

(** X11. Two constructions without an ABI share the ABI that the first one
    read, also when the file has changed in between: the second contract is
    built from the cached ABI and the file is opened once in all. *)
Theorem init_shares_the_cached_abi (web3a web3b : Web3) (w : world)
    (abi : ABI) (content : E + option ABI) :
  icontract_deployer_abi_cache w = None ->
  IContractDeployer_json w = inr (Some abi) ->
  exists w1 : world,
    __init__ web3a None w =
      (sum_map id (fun c => {| web3 := web3a;
                               as_self := {| contract_deployer := c |} |})
               (eth_contract web3a (Some abi)), w1)
    /\ __init__ web3b None
         (World (icontract_deployer_abi_cache w1) content (opened w1)) =
      (sum_map id (fun c => {| web3 := web3b;
                               as_self := {| contract_deployer := c |} |})
               (eth_contract web3b (Some abi)),
       World (Some abi) content (S (opened w))).
Proof.
  intros Hc Hf.
  pose proof (default_first_call w abi Hc Hf) as Hd.
  exists (World (Some abi) (inr (Some abi)) (S (opened w))). split.
  - unfold __init__. rewrite Hd.
    destruct (eth_contract web3a (Some abi)); reflexivity.
  - unfold __init__. cbn.
    destruct (eth_contract web3b (Some abi)); reflexivity.
Qed.

(** X12. An ABI passed to the constructor is used as it is and is not
    remembered: the world is untouched, and a later construction without
    an ABI still reads the file and builds its contract from the file's
    ABI. *)
Theorem init_does_not_cache_its_argument (web3a web3b : Web3) (w : world)
    (given abi : ABI) :
  icontract_deployer_abi_cache w = None ->
  IContractDeployer_json w = inr (Some abi) ->
  __init__ web3a (Some given) w =
    (sum_map id (fun c => {| web3 := web3a;
                             as_self := {| contract_deployer := c |} |})
             (eth_contract web3a (Some given)), w)
  /\ __init__ web3b None (__init__ web3a (Some given) w).2 =
    (sum_map id (fun c => {| web3 := web3b;
                             as_self := {| contract_deployer := c |} |})
             (eth_contract web3b (Some abi)),
     World (Some abi) (inr (Some abi)) (S (opened w))).
Proof.
  intros Hc Hf. rewrite init_world. split.
  - unfold __init__. destruct (eth_contract web3a (Some given)); reflexivity.
  - unfold __init__. rewrite (default_first_call w abi Hc Hf).
    destruct (eth_contract web3b (Some abi)); reflexivity.
Qed.

End abi_cache_properties.

Lemma cache_is_permanent_witness :
  icontract_deployer_abi_cache sample_world_cached = Some "abi-1"%string
  /\ rtc (step (TxReceipt := unit)) sample_world_cached
       (World (Some "abi-1"%string) (inl "No such file"%string) 1)
  /\ icontract_deployer_abi_cache
       (World (Some "abi-1"%string) (inl "No such file"%string) 1)
     = Some "abi-1"%string
  /\ opened (World (Some "abi-1"%string) (inl "No such file"%string) 1)
     = opened sample_world_cached
  /\ _icontract_deployer_abi_default
       (World (Some "abi-1"%string) (inl "No such file"%string) 1)
     = (inr (Some "abi-1"%string),
        World (Some "abi-1"%string) (inl "No such file"%string) 1).
Proof.
  assert (Hc : icontract_deployer_abi_cache sample_world_cached
               = Some "abi-1"%string) by reflexivity.
  assert (Hs : rtc (step (TxReceipt := unit)) sample_world_cached
                 (World (Some "abi-1"%string) (inl "No such file"%string) 1)).
  { eapply rtc_l;
      [exact (step_resource sample_world_cached (inl "No such file"%string))|].
    eapply rtc_l; [|apply rtc_refl].
    exact (step_init sample_web3 None
             (World (Some "abi-1"%string) (inl "No such file"%string) 1)). }
  split; [exact Hc|]. split; [exact Hs|].
  exact (cache_is_permanent sample_world_cached _ "abi-1"%string Hc Hs).
Defined.

Lemma default_reads_once_witness :
  icontract_deployer_abi_cache sample_world_fresh = None
  /\ IContractDeployer_json sample_world_fresh = inr (Some "abi-2"%string)
  /\ _icontract_deployer_abi_default sample_world_fresh =
       (inr (Some "abi-2"%string),
        World (Some "abi-2"%string) (inr (Some "abi-2"%string)) 1)
  /\ after_calls 3 sample_world_fresh =
     World (Some "abi-2"%string) (inr (Some "abi-2"%string)) 1.
Proof.
  split; [reflexivity|]. split; [reflexivity|].
  exact (default_reads_once sample_world_fresh "abi-2"%string 2
           eq_refl eq_refl).
Defined.

Lemma unusable_file_is_read_again_witness :
  icontract_deployer_abi_cache sample_world_no_file = None
  /\ (forall abi : string,
        IContractDeployer_json sample_world_no_file <> inr (Some abi))
  /\ after_calls 3 sample_world_no_file =
     World None (inl "No such file"%string) 3
  /\ (_icontract_deployer_abi_default (after_calls 3 sample_world_no_file)).1
     = inl "No such file"%string.
Proof.
  assert (Hf : forall abi : string,
             IContractDeployer_json sample_world_no_file <> inr (Some abi))
    by (intros abi; discriminate).
  split; [reflexivity|]. split; [exact Hf|].
  exact (unusable_file_is_read_again sample_world_no_file 3 eq_refl Hf).
Defined.

Lemma init_shares_the_cached_abi_witness :
  icontract_deployer_abi_cache sample_world_fresh = None
  /\ IContractDeployer_json sample_world_fresh = inr (Some "abi-2"%string)
  /\ exists w1 : world string string,
    __init__ sample_web3 None sample_world_fresh =
      (sum_map id (fun c => {| web3 := sample_web3;
                               as_self := {| contract_deployer := c |} |})
               (eth_contract sample_web3 (Some "abi-2"%string)), w1)
    /\ __init__ sample_web3 None
         (World (icontract_deployer_abi_cache w1)
                (inr (Some "abi-3"%string)) (opened w1)) =
      (sum_map id (fun c => {| web3 := sample_web3;
                               as_self := {| contract_deployer := c |} |})
               (eth_contract sample_web3 (Some "abi-2"%string)),
       World (Some "abi-2"%string) (inr (Some "abi-3"%string)) 1).
Proof.
  split; [reflexivity|]. split; [reflexivity|].
  exact (init_shares_the_cached_abi sample_web3 sample_web3
           sample_world_fresh "abi-2"%string (inr (Some "abi-3"%string))
           eq_refl eq_refl).
Defined.

Lemma init_does_not_cache_its_argument_witness :
  icontract_deployer_abi_cache sample_world_fresh = None
  /\ IContractDeployer_json sample_world_fresh = inr (Some "abi-2"%string)
  /\ __init__ sample_web3 (Some "abi-0"%string) sample_world_fresh =
    (sum_map id (fun c => {| web3 := sample_web3;
                             as_self := {| contract_deployer := c |} |})
             (eth_contract sample_web3 (Some "abi-0"%string)),
     sample_world_fresh)
  /\ __init__ sample_web3 None
       (__init__ sample_web3 (Some "abi-0"%string) sample_world_fresh).2 =
    (sum_map id (fun c => {| web3 := sample_web3;
                             as_self := {| contract_deployer := c |} |})
             (eth_contract sample_web3 (Some "abi-2"%string)),
     World (Some "abi-2"%string) (inr (Some "abi-2"%string)) 1).
Proof.
  split; [reflexivity|]. split; [reflexivity|].
  exact (init_does_not_cache_its_argument sample_web3 sample_web3
           sample_world_fresh "abi-0"%string "abi-2"%string eq_refl eq_refl).
Defined.
